(** * deepseek_api: the session facades of [deepseek_api/deepseek_api.py]

    A shallow embedding of the two client classes, [AsyncDeepseekAPI] and
    [SyncDeepseekAPI], together with the part of Python they lean on:
    strings as sequences of code points, insertion-ordered dictionaries,
    and the [json] module's [loads] and [dumps]. *)

From Stdlib Require Import List NArith ZArith Lia Bool String Ascii.
Import ListNotations.
Local Open Scope N_scope.
Set Warnings "-register-all".

(** ** Python strings *)

(** A [str] is a sequence of Unicode code points. *)
Definition pystr := list N.

(** An ASCII literal of the source, as a [str]. *)
Definition py (s : string) : pystr := map N_of_ascii (list_ascii_of_string s).
Arguments py : simpl never.

Fixpoint str_eqb (a b : pystr) : bool :=
  match a, b with
  | [], [] => true
  | x :: a', y :: b' => (x =? y) && str_eqb a' b'
  | _, _ => false
  end.

(** ** Python values *)

(** The values that [json.loads] produces and that the facades store in
    headers, payloads and the chat history.  A float is kept as the
    decimal literal it was read from; a [dict] keeps insertion order. *)
Inductive value : Type :=
| VNone
| VBool (b : bool)
| VInt (z : Z)
| VFloat (lit : pystr)
| VStr (s : pystr)
| VList (l : list value)
| VDict (d : list (pystr * value)).

Definition dict := list (pystr * value).

(** [d.get(k)], with [None] of Rocq for a missing key. *)
Fixpoint dict_get (k : pystr) (d : dict) : option value :=
  match d with
  | [] => None
  | (k', v) :: d' => if str_eqb k k' then Some v else dict_get k d'
  end.

(** [d[k] = v]: an existing key keeps its place, a new key goes last. *)
Fixpoint dict_set (k : pystr) (v : value) (d : dict) : dict :=
  match d with
  | [] => [(k, v)]
  | (k', v') :: d' =>
      if str_eqb k k' then (k', v) :: d' else (k', v') :: dict_set k v d'
  end.

(** [{**d, **kw}]: the entries of [kw] are set in order. *)
Definition dict_update (d kw : dict) : dict :=
  fold_left (fun acc kv => dict_set (fst kv) (snd kv) acc) kw d.

(** ** The json module *)

(** [dumps] and [loads] with their default arguments, on [str] input.
    Integers and the depth of nesting are unbounded: the interpreter's
    limits on the digits of an [int] and on recursion are left out. *)
Module Json.

(** Code points of the characters the grammar names. *)
Definition QUOTE : N := 34.      (* double quote *)
Definition BACKSLASH : N := 92.
Definition SLASH : N := 47.
Definition LBRACE : N := 123.
Definition RBRACE : N := 125.
Definition LBRACKET : N := 91.
Definition RBRACKET : N := 93.
Definition COMMA : N := 44.
Definition COLON : N := 58.
Definition MINUS : N := 45.
Definition PLUS : N := 43.
Definition DOT : N := 46.
Definition SPACE : N := 32.

Definition hexdigit (d : N) : N := if d <? 10 then 48 + d else 87 + d.

(** ['\\u{0:04x}'.format(n)] for [n < 0x10000]. *)
Definition u_escape (n : N) : pystr :=
  [BACKSLASH; 117;
   hexdigit (N.shiftr n 12 mod 16); hexdigit (N.shiftr n 8 mod 16);
   hexdigit (N.shiftr n 4 mod 16); hexdigit (n mod 16)].

(** The replacement of one character in [encode_basestring_ascii]:
    [ESCAPE_DCT] first, then the [\uXXXX] forms, a surrogate pair above
    the basic plane. Characters from space to tilde other than the quote
    and the backslash stand for themselves. *)
Definition escape_char (c : N) : pystr :=
  if c =? QUOTE then [BACKSLASH; QUOTE]
  else if c =? BACKSLASH then [BACKSLASH; BACKSLASH]
  else if c =? 10 then [BACKSLASH; 110]
  else if c =? 13 then [BACKSLASH; 114]
  else if c =? 9 then [BACKSLASH; 116]
  else if c =? 8 then [BACKSLASH; 98]
  else if c =? 12 then [BACKSLASH; 102]
  else if (32 <=? c) && (c <=? 126) then [c]
  else if c <? 65536 then u_escape c
  else
    let n := c - 65536 in
    let s1 := N.lor 55296 (N.land (N.shiftr n 10) 1023) in
    let s2 := N.lor 56320 (N.land n 1023) in
    u_escape s1 ++ u_escape s2.

Definition encode_basestring_ascii (s : pystr) : pystr :=
  QUOTE :: flat_map escape_char s ++ [QUOTE].

Fixpoint uint_digits (d : Decimal.uint) : pystr :=
  match d with
  | Decimal.Nil => []
  | Decimal.D0 d' => 48 :: uint_digits d'
  | Decimal.D1 d' => 49 :: uint_digits d'
  | Decimal.D2 d' => 50 :: uint_digits d'
  | Decimal.D3 d' => 51 :: uint_digits d'
  | Decimal.D4 d' => 52 :: uint_digits d'
  | Decimal.D5 d' => 53 :: uint_digits d'
  | Decimal.D6 d' => 54 :: uint_digits d'
  | Decimal.D7 d' => 55 :: uint_digits d'
  | Decimal.D8 d' => 56 :: uint_digits d'
  | Decimal.D9 d' => 57 :: uint_digits d'
  end.

(** [str(z)] of an [int]. *)
Definition int_repr (z : Z) : pystr :=
  match z with
  | Z0 => [48]
  | Zpos p => uint_digits (Pos.to_uint p)
  | Zneg p => MINUS :: uint_digits (Pos.to_uint p)
  end.

(** [", ".join(parts)]. *)
Fixpoint join_comma (parts : list pystr) : pystr :=
  match parts with
  | [] => []
  | [p] => p
  | p :: ps => p ++ [COMMA; SPACE] ++ join_comma ps
  end.

(** [json.dumps(v)] with the default separators and [ensure_ascii]. *)
Fixpoint dumps (v : value) : pystr :=
  match v with
  | VNone => py "null"
  | VBool true => py "true"
  | VBool false => py "false"
  | VInt z => int_repr z
  | VFloat lit => lit
  | VStr s => encode_basestring_ascii s
  | VList l => LBRACKET :: join_comma (map dumps l) ++ [RBRACKET]
  | VDict d =>
      LBRACE ::
      join_comma
        (map (fun kv => encode_basestring_ascii (fst kv) ++ [COLON; SPACE]
                        ++ dumps (snd kv)) d)
      ++ [RBRACE]
  end.

(** *** json.loads *)

Definition is_ws (c : N) : bool :=
  (c =? 32) || (c =? 9) || (c =? 10) || (c =? 13).

Fixpoint skip_ws (s : pystr) : pystr :=
  match s with
  | c :: r => if is_ws c then skip_ws r else s
  | [] => []
  end.

Definition hexval (c : N) : option N :=
  if (48 <=? c) && (c <=? 57) then Some (c - 48)
  else if (97 <=? c) && (c <=? 102) then Some (c - 87)
  else if (65 <=? c) && (c <=? 70) then Some (c - 55)
  else None.

(** [_decode_uXXXX]: four hexadecimal digits, or an error. *)
Definition decode_uXXXX (a b c d : N) : option N :=
  match hexval a, hexval b, hexval c, hexval d with
  | Some x, Some y, Some z, Some w => Some (((x * 16 + y) * 16 + z) * 16 + w)
  | _, _, _, _ => None
  end.

(** The [BACKSLASH] table of the decoder. *)
Definition unescape (e : N) : option N :=
  if e =? QUOTE then Some QUOTE
  else if e =? BACKSLASH then Some BACKSLASH
  else if e =? SLASH then Some SLASH
  else if e =? 98 then Some 8
  else if e =? 102 then Some 12
  else if e =? 110 then Some 10
  else if e =? 114 then Some 13
  else if e =? 116 then Some 9
  else None.

Definition push (c : N) (r : option (pystr * pystr)) : option (pystr * pystr) :=
  match r with
  | Some (cs, rest) => Some (c :: cs, rest)
  | None => None
  end.

Definition is_high_surrogate (u : N) : bool := (55296 <=? u) && (u <=? 56319).
Definition is_low_surrogate (u : N) : bool := (56320 <=? u) && (u <=? 57343).

(** [py_scanstring] in strict mode, entered after the opening quote:
    the decoded string and the text after the closing quote. A high
    surrogate escape directly followed by a low surrogate escape is
    joined into one code point. *)
Fixpoint scanstring (s : pystr) : option (pystr * pystr) :=
  match s with
  | [] => None
  | c :: rest =>
      if c =? QUOTE then Some ([], rest)
      else if c =? BACKSLASH then
        match rest with
        | [] => None
        | e :: rest1 =>
            if e =? 117 then
              match rest1 with
              | h1 :: h2 :: h3 :: h4 :: rest2 =>
                  match decode_uXXXX h1 h2 h3 h4 with
                  | None => None
                  | Some uni =>
                      if is_high_surrogate uni then
                        match rest2 with
                        | b :: u :: l1 :: l2 :: l3 :: l4 :: rest3 =>
                            if (b =? BACKSLASH) && (u =? 117) then
                              match decode_uXXXX l1 l2 l3 l4 with
                              | None => None
                              | Some uni2 =>
                                  if is_low_surrogate uni2 then
                                    push (65536 + N.lor (N.shiftl (uni - 55296) 10)
                                                        (uni2 - 56320))
                                         (scanstring rest3)
                                  else push uni (scanstring rest2)
                              end
                            else push uni (scanstring rest2)
                        | _ => push uni (scanstring rest2)
                        end
                      else push uni (scanstring rest2)
                  end
              | _ => None
              end
            else
              match unescape e with
              | None => None
              | Some ch => push ch (scanstring rest1)
              end
        end
      else if c <? 32 then None
      else push c (scanstring rest)
  end.

Definition is_digit (c : N) : bool := (48 <=? c) && (c <=? 57).

Fixpoint span_digits (s : pystr) : pystr * pystr :=
  match s with
  | c :: r =>
      if is_digit c then let (ds, r') := span_digits r in (c :: ds, r')
      else ([], s)
  | [] => ([], [])
  end.

Definition digits_value (ds : pystr) : Z :=
  fold_left (fun acc d => (10 * acc + Z.of_N (d - 48))%Z) ds 0%Z.

Fixpoint strip_prefix (p s : pystr) : option pystr :=
  match p, s with
  | [], _ => Some s
  | x :: p', y :: s' => if x =? y then strip_prefix p' s' else None
  | _ :: _, [] => None
  end.

(** [NUMBER_RE]: an optional minus sign, then a zero or a digit string
    that does not start with zero; an optional fraction (a dot and at
    least one digit); an optional exponent (e or E, an optional sign, at
    least one digit). Without fraction and exponent the match is an
    [int]. *)
Definition match_number (s : pystr) : option (value * pystr) :=
  let (sign, s0) :=
    match s with
    | c :: r => if c =? MINUS then ([MINUS], r) else ([], s)
    | [] => ([], s)
    end in
  let int_part :=
    match s0 with
    | c :: r =>
        if c =? 48 then Some ([48], r)
        else if is_digit c then let (ds, r') := span_digits r in Some (c :: ds, r')
        else None
    | [] => None
    end in
  match int_part with
  | None => None
  | Some (ip, s1) =>
      let (frac, s2) :=
        match s1 with
        | d :: s1' =>
            if d =? DOT then
              match span_digits s1' with
              | ([], _) => ([], s1)
              | (fs, r) => (DOT :: fs, r)
              end
            else ([], s1)
        | [] => ([], s1)
        end in
      let (exp, s3) :=
        match s2 with
        | e :: r =>
            if (e =? 101) || (e =? 69) then
              let (sg, r1) :=
                match r with
                | x :: r' => if (x =? PLUS) || (x =? MINUS) then ([x], r') else ([], r)
                | [] => ([], r)
                end in
              match span_digits r1 with
              | ([], _) => ([], s2)
              | (es, r2) => (e :: sg ++ es, r2)
              end
            else ([], s2)
        | [] => ([], s2)
        end in
      match frac, exp with
      | [], [] =>
          Some (VInt (match sign with
                      | [] => digits_value ip
                      | _ => - digits_value ip
                      end)%Z, s3)
      | _, _ => Some (VFloat (sign ++ ip ++ frac ++ exp), s3)
      end
  end.

Definition literal (name : string) (v : value) (s : pystr) : option (value * pystr) :=
  match strip_prefix (py name) s with
  | Some rest => Some (v, rest)
  | None => None
  end.

(** [scan_once], [JSONObject] and [JSONArray]. The fuel bounds the chain
    of calls; every call is made after at least one character has been
    consumed, so the length of the text is always enough. *)
Fixpoint scan_once (fuel : nat) (s : pystr) {struct fuel} : option (value * pystr) :=
  match fuel with
  | O => None
  | S fuel' =>
      match s with
      | [] => None
      | c :: rest =>
          if c =? QUOTE then
            match scanstring rest with
            | Some (str, r) => Some (VStr str, r)
            | None => None
            end
          else if c =? LBRACE then
            match skip_ws rest with
            | c' :: r =>
                if c' =? RBRACE then Some (VDict [], r)
                else JSONObject fuel' [] (c' :: r)
            | [] => None
            end
          else if c =? LBRACKET then
            match skip_ws rest with
            | c' :: r =>
                if c' =? RBRACKET then Some (VList [], r)
                else JSONArray fuel' [] (c' :: r)
            | [] => None
            end
          else if c =? 110 then literal "null" VNone s
          else if c =? 116 then literal "true" (VBool true) s
          else if c =? 102 then literal "false" (VBool false) s
          else
            match match_number s with
            | Some r => Some r
            | None =>
                if c =? 78 then literal "NaN" (VFloat (py "NaN")) s
                else if c =? 73 then literal "Infinity" (VFloat (py "Infinity")) s
                else if c =? MINUS then literal "-Infinity" (VFloat (py "-Infinity")) s
                else None
            end
      end
  end

with JSONObject (fuel : nat) (pairs : dict) (s : pystr) {struct fuel}
  : option (value * pystr) :=
  match fuel with
  | O => None
  | S fuel' =>
      match s with
      | [] => None
      | q :: s1 =>
          if q =? QUOTE then
            match scanstring s1 with
            | None => None
            | Some (key, s2) =>
                match skip_ws s2 with
                | [] => None
                | c :: s3 =>
                    if c =? COLON then
                      match scan_once fuel' (skip_ws s3) with
                      | None => None
                      | Some (v, s4) =>
                          let pairs' := dict_set key v pairs in
                          match skip_ws s4 with
                          | [] => None
                          | d :: s5 =>
                              if d =? RBRACE then Some (VDict pairs', s5)
                              else if d =? COMMA then JSONObject fuel' pairs' (skip_ws s5)
                              else None
                          end
                      end
                    else None
                end
            end
          else None
      end
  end

with JSONArray (fuel : nat) (values : list value) (s : pystr) {struct fuel}
  : option (value * pystr) :=
  match fuel with
  | O => None
  | S fuel' =>
      match scan_once fuel' s with
      | None => None
      | Some (v, s1) =>
          let values' := values ++ [v] in
          match skip_ws s1 with
          | [] => None
          | d :: s2 =>
              if d =? RBRACKET then Some (VList values', s2)
              else if d =? COMMA then JSONArray fuel' values' (skip_ws s2)
              else None
          end
      end
  end.

(** [json.loads(s)] of a [str]: [None] stands for [JSONDecodeError]. *)
Definition loads (s : pystr) : option value :=
  match s with
  | 65279 :: _ => None
  | _ =>
      match scan_once (S (List.length s)) (skip_ws s) with
      | Some (v, rest) =>
          match skip_ws rest with
          | [] => Some v
          | _ :: _ => None
          end
      | None => None
      end
  end.

End Json.

(** ** Exceptions, files and the network *)

Inductive exn : Type :=
| ValueError (msg : pystr)
| JSONDecodeError
| UnicodeDecodeError
| FileNotFoundError
| AttributeError
| KeyError (key : value)
| IndexError
| TypeError
| HelperError (status : Z) (body : pystr).

Inductive outcome (A : Type) : Type :=
| Return (a : A)
| Raise (e : exn).
Arguments Return {A} a.
Arguments Raise {A} e.

(** The file at [credentials_path]: text, or bytes that do not decode. *)
Inductive file : Type :=
| Text (content : pystr)
| Undecodable.

(** One network call as the remote service sees it. The three login
    helpers of [utils] each stand for one call. *)
Inductive request : Type :=
| SessionId
| AuthToken (email password session_id : pystr)
| Cookies (auth_token : pystr)
| Http (method url : pystr) (headers : dict) (json : option value).

(** The object a call goes through: [self.client], or a [ClientSession]
    opened for one request with its [proxy] argument. *)
Inductive via : Type :=
| Client
| Session (proxy : value).

Record response : Type := {
  status_code : Z;
  json_body : outcome value;      (* what [response.json()] evaluates to *)
  frames : list pystr             (* the lines of a streamed body *)
}.

(** What [print] wrote. *)
Inductive line : Type :=
| ErrorLoadingCredentials (e : exn).

Record world : Type := {
  cred_file : option file;
  stdout : list line;
  net : list (via * request)
}.

(** The helpers imported from [.utils] and the service behind them. An
    answer may depend on the calls made so far. *)
Record utils : Type := {
  get_headers : dict;
  session_id_reply : list request -> outcome pystr;
  auth_token_reply : list request -> pystr -> pystr -> pystr -> outcome pystr;
  cookies_reply : list request -> pystr -> outcome pystr;
  http_reply : list request -> request -> outcome response;
  raise_for_status : response -> outcome unit;
  is_sentinel : pystr -> bool;
  is_keep_alive : pystr -> bool;
  payload : pystr -> pystr
}.

(** ** Stream Decoder *)

Module StreamDecoder.

Section Frames.
Variable U : utils.

Inductive frame_kind : Type :=
| Sentinel
| Skipped
| Delta (v : value).

Definition classify (f : pystr) : frame_kind :=
  if is_sentinel U f then Sentinel
  else
    match f with
    | [] => Skipped
    | _ :: _ =>
        if is_keep_alive U f then Skipped
        else
          match Json.loads (payload U f) with
          | Some v => Delta v
          | None => Skipped
          end
    end.

(** Modelled from the spec: [process_stream_response] of [utils], which
    is not among the sources. The generator is given as the list of
    deltas it yields while it is drained; it stops at the first
    sentinel frame or when the frames end, and passes over a frame that
    is empty, a keep-alive ping or not JSON. *)
Fixpoint process_stream_response (fs : list pystr) : list value :=
  match fs with
  | [] => []
  | f :: rest =>
      match classify f with
      | Sentinel => []
      | Skipped => process_stream_response rest
      | Delta v => v :: process_stream_response rest
      end
  end.

(** The frames before the first sentinel. *)
Fixpoint before_sentinel (fs : list pystr) : list pystr :=
  match fs with
  | [] => []
  | f :: rest => if is_sentinel U f then [] else f :: before_sentinel rest
  end.

(** The parsed payload of a frame that is neither empty nor a
    keep-alive ping and whose payload is JSON. *)
Definition valid_frame (f : pystr) : option value :=
  match f with
  | [] => None
  | _ :: _ => if is_keep_alive U f then None else Json.loads (payload U f)
  end.

Fixpoint parsed_frames (fs : list pystr) : list value :=
  match fs with
  | [] => []
  | f :: rest =>
      match valid_frame f with
      | Some v => v :: parsed_frames rest
      | None => parsed_frames rest
      end
  end.
End Frames.

End StreamDecoder.

(** ** The instance and its effects *)

Record api : Type := {
  email : option pystr;
  password : option pystr;
  proxies : option dict;
  api_key : option pystr;
  base_url : option pystr;
  headers : dict;
  chat_headers : option dict;
  chat_history : list value;
  credentials : option value;
  session_id : option pystr;
  auth_token : option pystr;
  cookie : option pystr
}.

(** [__init__]: the attributes [credentials], [session_id], [auth_token]
    and [cookie] do not exist yet. *)
Definition init (U : utils) (email password : option pystr) (proxies : option dict)
    (api_key base_url : option pystr) : api :=
  {| email := email; password := password; proxies := proxies;
     api_key := api_key; base_url := base_url;
     headers := get_headers U; chat_headers := None; chat_history := [];
     credentials := None; session_id := None; auth_token := None;
     cookie := None |}.

Definition with_headers (h : dict) (a : api) : api :=
  {| email := email a; password := password a; proxies := proxies a;
     api_key := api_key a; base_url := base_url a;
     headers := h; chat_headers := chat_headers a;
     chat_history := chat_history a; credentials := credentials a;
     session_id := session_id a; auth_token := auth_token a;
     cookie := cookie a |}.

Definition with_chat_headers (h : option dict) (a : api) : api :=
  {| email := email a; password := password a; proxies := proxies a;
     api_key := api_key a; base_url := base_url a;
     headers := headers a; chat_headers := h;
     chat_history := chat_history a; credentials := credentials a;
     session_id := session_id a; auth_token := auth_token a;
     cookie := cookie a |}.

Definition with_chat_history (l : list value) (a : api) : api :=
  {| email := email a; password := password a; proxies := proxies a;
     api_key := api_key a; base_url := base_url a;
     headers := headers a; chat_headers := chat_headers a;
     chat_history := l; credentials := credentials a;
     session_id := session_id a; auth_token := auth_token a;
     cookie := cookie a |}.

Definition with_credentials (v : option value) (a : api) : api :=
  {| email := email a; password := password a; proxies := proxies a;
     api_key := api_key a; base_url := base_url a;
     headers := headers a; chat_headers := chat_headers a;
     chat_history := chat_history a; credentials := v;
     session_id := session_id a; auth_token := auth_token a;
     cookie := cookie a |}.

Definition with_session_id (v : option pystr) (a : api) : api :=
  {| email := email a; password := password a; proxies := proxies a;
     api_key := api_key a; base_url := base_url a;
     headers := headers a; chat_headers := chat_headers a;
     chat_history := chat_history a; credentials := credentials a;
     session_id := v; auth_token := auth_token a;
     cookie := cookie a |}.

Definition with_auth_token (v : option pystr) (a : api) : api :=
  {| email := email a; password := password a; proxies := proxies a;
     api_key := api_key a; base_url := base_url a;
     headers := headers a; chat_headers := chat_headers a;
     chat_history := chat_history a; credentials := credentials a;
     session_id := session_id a; auth_token := v;
     cookie := cookie a |}.

Definition with_cookie (v : option pystr) (a : api) : api :=
  {| email := email a; password := password a; proxies := proxies a;
     api_key := api_key a; base_url := base_url a;
     headers := headers a; chat_headers := chat_headers a;
     chat_history := chat_history a; credentials := credentials a;
     session_id := session_id a; auth_token := auth_token a;
     cookie := v |}.

(** A method runs on the instance and the world around it; an exception
    leaves both as they were when it was raised. *)
Record state : Type := { self : api; env : world }.

Definition M (A : Type) : Type := state -> outcome A * state.

Definition ret {A} (a : A) : M A := fun s => (Return a, s).

Definition bind {A B} (m : M A) (k : A -> M B) : M B :=
  fun s =>
    match m s with
    | (Return a, s') => k a s'
    | (Raise e, s') => (Raise e, s')
    end.

Definition raise {A} (e : exn) : M A := fun s => (Raise e, s).

(** [try: m  except Exception as e: handler e]. *)
Definition try_except {A} (m : M A) (handler : exn -> M A) : M A :=
  fun s =>
    match m s with
    | (Return a, s') => (Return a, s')
    | (Raise e, s') => handler e s'
    end.

Definition lift {A} (o : outcome A) : M A := fun s => (o, s).

Declare Scope py_scope.
Delimit Scope py_scope with py.
Notation "x <- m ;; k" := (bind m (fun x => k))
  (at level 61, m at next level, right associativity) : py_scope.
Notation "m ;; k" := (bind m (fun _ => k))
  (at level 61, right associativity) : py_scope.
Local Open Scope py_scope.

Definition get_self : M api := fun s => (Return (self s), s).

Definition update (f : api -> api) : M unit :=
  fun s => (Return tt, {| self := f (self s); env := env s |}).

(** [self.headers[k] = v]. *)
Definition set_header (k : pystr) (v : value) : M unit :=
  update (fun a => with_headers (dict_set k v (headers a)) a).

(** [os.path.exists(self.credentials_path)]. *)
Definition path_exists : M bool :=
  fun s => (Return (match cred_file (env s) with Some _ => true | None => false end), s).

(** [open(self.credentials_path, "r")] and [f.read()]. The file was seen
    to exist just before. *)
Definition read_file : M pystr :=
  fun s =>
    match cred_file (env s) with
    | Some (Text content) => (Return content, s)
    | Some Undecodable => (Raise UnicodeDecodeError, s)
    | None => (Raise FileNotFoundError, s)
    end.

(** [open(self.credentials_path, "w")] and [f.write(text)]. *)
Definition write_file (text : pystr) : M unit :=
  fun s =>
    (Return tt,
     {| self := self s;
        env := {| cred_file := Some (Text text); stdout := stdout (env s);
                  net := net (env s) |} |}).

Definition print (l : line) : M unit :=
  fun s =>
    (Return tt,
     {| self := self s;
        env := {| cred_file := cred_file (env s); stdout := stdout (env s) ++ [l];
                  net := net (env s) |} |}).

(** A network call: it is recorded, and answered from the calls before. *)
Definition call {A} (v : via) (r : request) (answer : list request -> outcome A) : M A :=
  fun s =>
    (answer (map snd (net (env s))),
     {| self := self s;
        env := {| cred_file := cred_file (env s); stdout := stdout (env s);
                  net := net (env s) ++ [(v, r)] |} |}).

(** Truth value of an [Optional[str]] and of an [Optional[Dict]]. *)
Definition truthy {A} (o : option (list A)) : bool :=
  match o with
  | Some (_ :: _) => true
  | _ => false
  end.

(** An [Optional[str]] inside an f-string. *)
Definition fstr (o : option pystr) : pystr :=
  match o with
  | Some s => s
  | None => py "None"
  end.

Definition json_loads (content : pystr) : M value :=
  match Json.loads content with
  | Some v => ret v
  | None => raise JSONDecodeError
  end.

(** [v.get(k)]: only a [dict] has the method. *)
Definition method_get (v : value) (k : pystr) : M value :=
  match v with
  | VDict d => ret (match dict_get k d with Some x => x | None => VNone end)
  | _ => raise AttributeError
  end.

(** [v[k]] for a string key. *)
Definition getitem (v : value) (k : pystr) : M value :=
  match v with
  | VDict d =>
      match dict_get k d with
      | Some x => ret x
      | None => raise (KeyError (VStr k))
      end
  | _ => raise TypeError
  end.

(** [v[0]]. *)
Definition getitem0 (v : value) : M value :=
  match v with
  | VList (x :: _) => ret x
  | VList [] => raise IndexError
  | VStr (c :: _) => ret (VStr [c])
  | VStr [] => raise IndexError
  | VDict _ => raise (KeyError (VInt 0))
  | _ => raise TypeError
  end.

Definition turn (role : string) (content : value) : value :=
  VDict [(py "role", VStr (py role)); (py "content", content)].

(** [self.chat_history.append(t)]. *)
Definition append_history (t : value) : M unit :=
  update (fun a => with_chat_history (chat_history a ++ [t]) a).

(** The helpers of [utils] that talk to the service through [self.client]. *)
Definition get_session_id (U : utils) : M pystr :=
  call Client SessionId (session_id_reply U).

Definition get_auth_token (U : utils) (email password session_id : pystr) : M pystr :=
  call Client (AuthToken email password session_id)
       (fun past => auth_token_reply U past email password session_id).

Definition get_cookies (U : utils) (auth_token : pystr) : M pystr :=
  call Client (Cookies auth_token) (fun past => cookies_reply U past auth_token).

Definition http (U : utils) (v : via) (r : request) : M response :=
  call v r (fun past => http_reply U past r).

(** What [send_message] returns: the reply, or the generator of deltas. *)
Inductive sent : Type :=
| Reply (response_json : value)
| Stream (deltas : list value).

(** The [str] or [dict] held by an optional attribute known to be set. *)
Definition the {A} (o : option (list A)) : list A :=
  match o with
  | Some d => d
  | None => []
  end.

(** ** class AsyncDeepseekAPI *)

Module AsyncDeepseekAPI.

(** The part of [login] after the two shortcuts: the check of the
    configuration, the three calls, and the save. *)
Definition fresh_login (U : utils) (self : api) : M unit :=
  if negb (truthy (email self)) || negb (truthy (password self)) then
    raise (ValueError (py "Email and password are required for login."))
  else
    sid <- get_session_id U ;;
    update (with_session_id (Some sid)) ;;
    set_header (py "Cookie") (VStr (py "session-id=" ++ sid)) ;;
    tok <- get_auth_token U (the (email self)) (the (password self)) sid ;;
    update (with_auth_token (Some tok)) ;;
    set_header (py "Authorization") (VStr (py "Bearer " ++ tok)) ;;
    ck <- get_cookies U tok ;;
    update (with_cookie (Some ck)) ;;
    set_header (py "Cookie") (VStr ck) ;;
    let creds :=
      VDict [(py "session_id", VStr sid); (py "auth_token", VStr tok);
             (py "cookie", VStr ck)] in
    update (with_credentials (Some creds)) ;;
    write_file (Json.dumps creds).

Definition login (U : utils) : M unit :=
  self <- get_self ;;
  if truthy (api_key self) then
    set_header (py "Authorization") (VStr (py "Bearer " ++ fstr (api_key self)))
  else
    found <- path_exists ;;
    cached <-
      (if found then
         try_except
           (content <- read_file ;;
            loaded <- json_loads content ;;
            update (with_credentials (Some loaded)) ;;
            c <- method_get loaded (py "cookie") ;;
            set_header (py "Cookie") c ;;
            ret true)
           (fun e => print (ErrorLoadingCredentials e) ;; ret false)
       else ret false) ;;
    if cached then ret tt else fresh_login U self.

Definition get_models (U : utils) : M value :=
  self <- get_self ;;
  let url := fstr (base_url self) ++ py "/api/models" in
  let proxy :=
    if truthy (proxies self) then
      match dict_get (py "https") (the (proxies self)) with
      | Some p => p
      | None => VNone
      end
    else VNone in
  response <- http U (Session proxy) (Http (py "GET") url (headers self) None) ;;
  lift (raise_for_status U response) ;;
  lift (json_body response).

Definition send_message (U : utils) (message model : pystr) (stream : bool)
    (kwargs : dict) : M sent :=
  self0 <- get_self ;;
  (if negb (truthy (chat_headers self0)) then
     update (with_chat_headers (Some (headers self0))) ;;
     update (fun a => with_chat_headers
               (Some (dict_set (py "Accept") (VStr (py "text/event-stream"))
                               (the (chat_headers a)))) a) ;;
     update (fun a => with_chat_headers
               (Some (dict_set (py "Content-Type") (VStr (py "application/json"))
                               (the (chat_headers a)))) a)
   else ret tt) ;;
  self <- get_self ;;
  let payload :=
    VDict (dict_update
             [(py "message", VStr message);
              (py "stream", VBool stream);
              (py "model_class",
               VStr (if str_eqb model (py "deepseek-chat")
                     then py "deepseek_chat" else py "deepseek_code"));
              (py "chat_history", VList (chat_history self))]
             kwargs) in
  let url := fstr (base_url self) ++ py "/api/chat/send" in
  response <- http U Client
                (Http (py "POST") url (the (chat_headers self)) (Some payload)) ;;
  lift (raise_for_status U response) ;;
  if stream then
    ret (Stream (StreamDecoder.process_stream_response U (frames response)))
  else
    response_json <- lift (json_body response) ;;
    append_history (turn "user" (VStr message)) ;;
    choices <- getitem response_json (py "choices") ;;
    choice <- getitem0 choices ;;
    msg <- getitem choice (py "message") ;;
    content <- getitem msg (py "content") ;;
    append_history (turn "assistant" content) ;;
    ret (Reply response_json).

(** [__aenter__]: log in, then hand out the instance. *)
Definition aenter (U : utils) : M api :=
  login U ;;
  get_self.

(** [__aexit__]: [pass]. The [None] it returns is falsy, shown as
    [false]: an exception of the block is not swallowed. *)
Definition aexit (exc : option exn) : M bool := ret false.

End AsyncDeepseekAPI.

(** ** class SyncDeepseekAPI *)

(** [await] and the libraries behind the transports are not modelled:
    a call is recorded with the object it goes through and answered from
    the requests alone. Where the two classes differ only in [await] and
    in those objects, their embeddings are the same term, and what is
    proved of one holds of the other for that reason alone. *)

Module SyncDeepseekAPI.

(** The part of [login] after the two shortcuts: the check of the
    configuration, the three calls, and the save. *)
Definition fresh_login (U : utils) (self : api) : M unit :=
  if negb (truthy (email self)) || negb (truthy (password self)) then
    raise (ValueError (py "Email and password are required for login."))
  else
    sid <- get_session_id U ;;
    update (with_session_id (Some sid)) ;;
    set_header (py "Cookie") (VStr (py "session-id=" ++ sid)) ;;
    tok <- get_auth_token U (the (email self)) (the (password self)) sid ;;
    update (with_auth_token (Some tok)) ;;
    set_header (py "Authorization") (VStr (py "Bearer " ++ tok)) ;;
    ck <- get_cookies U tok ;;
    update (with_cookie (Some ck)) ;;
    set_header (py "Cookie") (VStr ck) ;;
    let creds :=
      VDict [(py "session_id", VStr sid); (py "auth_token", VStr tok);
             (py "cookie", VStr ck)] in
    update (with_credentials (Some creds)) ;;
    write_file (Json.dumps creds).

Definition login (U : utils) : M unit :=
  self <- get_self ;;
  if truthy (api_key self) then
    set_header (py "Authorization") (VStr (py "Bearer " ++ fstr (api_key self)))
  else
    found <- path_exists ;;
    cached <-
      (if found then
         try_except
           (content <- read_file ;;
            loaded <- json_loads content ;;
            update (with_credentials (Some loaded)) ;;
            c <- method_get loaded (py "cookie") ;;
            set_header (py "Cookie") c ;;
            ret true)
           (fun e => print (ErrorLoadingCredentials e) ;; ret false)
       else ret false) ;;
    if cached then ret tt else fresh_login U self.

Definition get_models (U : utils) : M value :=
  self <- get_self ;;
  let url := fstr (base_url self) ++ py "/api/models" in
  response <- http U Client (Http (py "GET") url (headers self) None) ;;
  lift (raise_for_status U response) ;;
  lift (json_body response).

Definition send_message (U : utils) (message model : pystr) (stream : bool)
    (kwargs : dict) : M sent :=
  self0 <- get_self ;;
  (if negb (truthy (chat_headers self0)) then
     update (with_chat_headers (Some (headers self0))) ;;
     update (fun a => with_chat_headers
               (Some (dict_set (py "Accept") (VStr (py "text/event-stream"))
                               (the (chat_headers a)))) a) ;;
     update (fun a => with_chat_headers
               (Some (dict_set (py "Content-Type") (VStr (py "application/json"))
                               (the (chat_headers a)))) a)
   else ret tt) ;;
  self <- get_self ;;
  let payload :=
    VDict (dict_update
             [(py "message", VStr message);
              (py "stream", VBool stream);
              (py "model_class",
               VStr (if str_eqb model (py "deepseek-chat")
                     then py "deepseek_chat" else py "deepseek_code"));
              (py "chat_history", VList (chat_history self))]
             kwargs) in
  let url := fstr (base_url self) ++ py "/api/chat/send" in
  response <- http U Client
                (Http (py "POST") url (the (chat_headers self)) (Some payload)) ;;
  lift (raise_for_status U response) ;;
  if stream then
    ret (Stream (StreamDecoder.process_stream_response U (frames response)))
  else
    response_json <- lift (json_body response) ;;
    append_history (turn "user" (VStr message)) ;;
    choices <- getitem response_json (py "choices") ;;
    choice <- getitem0 choices ;;
    msg <- getitem choice (py "message") ;;
    content <- getitem msg (py "content") ;;
    append_history (turn "assistant" content) ;;
    ret (Reply response_json).

(** [__enter__]: log in, then hand out the instance. *)
Definition enter (U : utils) : M api :=
  login U ;;
  get_self.

(** [__exit__]: [pass]. *)
Definition exit (exc : option exn) : M bool := ret false.

End SyncDeepseekAPI.

(** ** Vocabulary of the statements *)

Definition start (a : api) (w : world) : state := {| self := a; env := w |}.

(** The instance a method leaves behind, and the world. *)
Definition instance_after {A} (r : outcome A * state) : api := self (snd r).
Definition world_after {A} (r : outcome A * state) : world := env (snd r).

(** [d.get("cookie")] of a cached record. *)
Definition record_cookie (d : dict) : value :=
  match dict_get (py "cookie") d with
  | Some c => c
  | None => VNone
  end.

(** A cache that the load can use: a text file holding a JSON object. *)
Definition usable_cache (w : world) : bool :=
  match cred_file w with
  | Some (Text content) =>
      match Json.loads content with
      | Some (VDict _) => true
      | _ => false
      end
  | _ => false
  end.

Definition has_key (k : string) (d : dict) : bool :=
  match dict_get (py k) d with
  | Some _ => true
  | None => false
  end.

(** A record without one of the three fields of Credentials. *)
Definition lacks_field (d : dict) : bool :=
  negb (has_key "session_id" d && has_key "auth_token" d && has_key "cookie" d).

Definition config_error : exn :=
  ValueError (py "Email and password are required for login.").

(** A service for the examples: every helper succeeds. *)
Definition ok_response (v : value) : response :=
  {| status_code := 200; json_body := Return v; frames := [] |}.

Definition hi_reply : value :=
  VDict [(py "choices",
          VList [VDict [(py "message", VDict [(py "content", VStr (py "hi"))])]])].

Definition mock : utils :=
  {| get_headers := [(py "User-Agent", VStr (py "deepseek-test"))];
     session_id_reply := fun _ => Return (py "sid-1");
     auth_token_reply := fun _ _ _ _ => Return (py "tok-1");
     cookies_reply := fun _ _ => Return (py "ck=1");
     http_reply := fun _ _ => Return (ok_response hi_reply);
     raise_for_status := fun r =>
       if ((200 <=? status_code r) && (status_code r <? 300))%Z then Return tt
       else Raise (HelperError (status_code r) []);
     is_sentinel := str_eqb (py "data: [DONE]");
     is_keep_alive := fun f => match f with 58 :: _ => true | _ => false end;
     payload := fun f =>
       match Json.strip_prefix (py "data: ") f with
       | Some rest => rest
       | None => f
       end |}.

Definition empty_world : world := {| cred_file := None; stdout := []; net := [] |}.

Definition with_file (f : option file) (w : world) : world :=
  {| cred_file := f; stdout := stdout w; net := net w |}.

Definition with_stdout (l : list line) (w : world) : world :=
  {| cred_file := cred_file w; stdout := l; net := net w |}.

(** The text of a [str] that survives [json]: code points of Unicode,
    and no surrogate pair spelled as two code points (the decoder joins a
    high surrogate escape and a low surrogate escape that follow each
    other into one code point). *)
Fixpoint no_split_pair (s : pystr) : bool :=
  match s with
  | [] => true
  | c :: rest =>
      match rest with
      | [] => true
      | c' :: _ =>
          negb (Json.is_high_surrogate c && Json.is_low_surrogate c')
          && no_split_pair rest
      end
  end.

Definition is_str (s : pystr) : bool := forallb (fun c => c <? 1114112) s.

Definition valid_str (s : pystr) : bool := is_str s && no_split_pair s.

(** The Credentials record that the fresh login saves. *)
Definition credentials_record (session_id auth_token cookie : pystr) : value :=
  VDict [(py "session_id", VStr session_id); (py "auth_token", VStr auth_token);
         (py "cookie", VStr cookie)].


Definition chat_url (a : api) : pystr := fstr (base_url a) ++ py "/api/chat/send".

(** The reply of the specification's example, with any content. *)
Definition chat_completion (c : value) : value :=
  VDict [(py "choices", VList [VDict [(py "message", VDict [(py "content", c)])]])].

(** *** Sequences of operations on a facade *)

Inductive op : Type :=
| Login
| GetModels
| SendMessage (message model : pystr) (stream : bool) (kwargs : dict).

Inductive result : Type :=
| Done
| Models (v : value)
| Sent (r : sent).

Definition async_op (U : utils) (o : op) : M result :=
  match o with
  | Login => AsyncDeepseekAPI.login U ;; ret Done
  | GetModels => v <- AsyncDeepseekAPI.get_models U ;; ret (Models v)
  | SendMessage message model stream kwargs =>
      r <- AsyncDeepseekAPI.send_message U message model stream kwargs ;; ret (Sent r)
  end.

Definition sync_op (U : utils) (o : op) : M result :=
  match o with
  | Login => SyncDeepseekAPI.login U ;; ret Done
  | GetModels => v <- SyncDeepseekAPI.get_models U ;; ret (Models v)
  | SendMessage message model stream kwargs =>
      r <- SyncDeepseekAPI.send_message U message model stream kwargs ;; ret (Sent r)
  end.

(** The caller runs the operations one after the other and sees what
    each returns or raises. *)
Fixpoint run (step : op -> M result) (ops : list op) (s : state)
  : list (outcome result) * state :=
  match ops with
  | [] => ([], s)
  | o :: rest =>
      let (r, s1) := step o s in
      let (rs, s2) := run step rest s1 in
      (r :: rs, s2)
  end.

(** What can be observed of a run: what the operations returned or
    raised, the instance (headers, chat headers, history, credentials),
    the credential file, the printed lines, and the requests that reached
    the service with their headers and payloads. *)
Record observation : Type := {
  results : list (outcome result);
  instance : api;
  cache : option file;
  printed : list line;
  requests : list request
}.

Definition observe (r : list (outcome result) * state) : observation :=
  {| results := fst r;
     instance := self (snd r);
     cache := cred_file (env (snd r));
     printed := stdout (env (snd r));
     requests := map snd (net (env (snd r))) |}.

(** *** Instances and worlds of the examples *)

Definition origin : option pystr := Some (py "https://chat.deepseek.com").

Definition keyed_api : api := init mock None None None (Some (py "sk-1")) origin.

Definition plain_api : api :=
  init mock (Some (py "me@example.org")) (Some (py "pw")) None None origin.

Definition no_password_api : api :=
  init mock (Some (py "me@example.org")) None None None origin.

Definition saved_record : dict :=
  [(py "session_id", VStr (py "sid-1")); (py "auth_token", VStr (py "tok-1"));
   (py "cookie", VStr (py "ck=1"))].

Definition saved_world : world :=
  with_file (Some (Text (Json.dumps (VDict saved_record)))) empty_world.

Definition corrupt_world : world :=
  with_file (Some (Text (py "{not json"))) empty_world.

Definition partial_record : dict := [(py "session_id", VStr (py "sid-1"))].

Definition partial_world : world :=
  with_file (Some (Text (Json.dumps (VDict partial_record)))) empty_world.

(** *** The text of a saved record *)

(** A text that, placed after the escape of a high surrogate, makes the
    decoder join or fail: it starts with a [\u] escape that is not four
    hexadecimal digits or that names a low surrogate. *)
Definition joins_or_fails (t : pystr) : bool :=
  match t with
  | b :: t1 =>
      (b =? 92)
      && match t1 with
         | u :: t2 =>
             (u =? 117)
             && match t2 with
                | l1 :: l2 :: l3 :: l4 :: _ =>
                    match Json.decode_uXXXX l1 l2 l3 l4 with
                    | Some uni2 => Json.is_low_surrogate uni2
                    | None => true
                    end
                | _ => false
                end
         | [] => false
         end
  | [] => false
  end.

(** What [json.dumps] writes for a Credentials record. *)
Definition record_text (sid tok ck : pystr) : pystr :=
  Json.LBRACE ::
  Json.encode_basestring_ascii (py "session_id") ++ [Json.COLON; Json.SPACE]
  ++ Json.encode_basestring_ascii sid
  ++ Json.COMMA :: Json.SPACE ::
  Json.encode_basestring_ascii (py "auth_token") ++ [Json.COLON; Json.SPACE]
  ++ Json.encode_basestring_ascii tok
  ++ Json.COMMA :: Json.SPACE ::
  Json.encode_basestring_ascii (py "cookie") ++ [Json.COLON; Json.SPACE]
  ++ Json.encode_basestring_ascii ck
  ++ [Json.RBRACE].

(** A service whose cookie is a surrogate pair spelled as two code
    points, and the state after a fresh login with it. *)
Definition split_pair : pystr := [55357; 56832].

Definition split_pair_service : utils :=
  {| get_headers := get_headers mock;
     session_id_reply := session_id_reply mock;
     auth_token_reply := auth_token_reply mock;
     cookies_reply := fun _ _ => Return split_pair;
     http_reply := http_reply mock;
     raise_for_status := raise_for_status mock;
     is_sentinel := is_sentinel mock;
     is_keep_alive := is_keep_alive mock;
     payload := payload mock |}.

(** The state after a fresh login of [plain_api] with [mock]. *)
Definition logged_in : state :=
  snd (AsyncDeepseekAPI.fresh_login mock plain_api (start plain_api empty_world)).

(** An instance with a proxy for https, and a service whose chat reply
    has no choices. *)
Definition proxied_api : api :=
  init mock None None (Some [(py "https", VStr (py "http://proxy:8080"))])
       (Some (py "sk-1")) origin.

Definition empty_reply_service : utils :=
  {| get_headers := get_headers mock;
     session_id_reply := session_id_reply mock;
     auth_token_reply := auth_token_reply mock;
     cookies_reply := cookies_reply mock;
     http_reply := fun _ _ => Return (ok_response (VDict []));
     raise_for_status := raise_for_status mock;
     is_sentinel := is_sentinel mock;
     is_keep_alive := is_keep_alive mock;
     payload := payload mock |}.

(** *** The with statement *)

(** [with manager as x: body]: the manager's enter method, the body, and
    the manager's exit method with the body's exception when there is
    one. A truthy answer of the exit method swallows the exception, and
    the block then ends with no value. *)
Definition with_block {A} (enter : M api) (exit : option exn -> M bool)
    (body : api -> M A) : M (option A) :=
  x <- enter ;;
  fun s =>
    match body x s with
    | (Return a, s1) => bind (exit None) (fun _ => ret (Some a)) s1
    | (Raise e, s1) =>
        bind (exit (Some e))
             (fun swallow => if swallow then ret None else raise e) s1
    end.

(** *** Vocabulary of the further statements *)

(** A computation that neither reads nor changes the state. *)
Definition stateless {A} (m : M A) : Prop := exists o, forall s, m s = (o, s).


(** The exception that the load of the cache prints, if any. *)
Definition load_error (f : file) : option exn :=
  match f with
  | Undecodable => Some UnicodeDecodeError
  | Text content =>
      match Json.loads content with
      | None => Some JSONDecodeError
      | Some (VDict _) => None
      | Some _ => Some AttributeError
      end
  end.

Definition load_diagnostic (w : world) : list line :=
  match cred_file w with
  | Some f =>
      match load_error f with
      | Some e => [ErrorLoadingCredentials e]
      | None => []
      end
  | None => []
  end.

(** The constructor arguments of an instance. *)
Definition configuration (a : api)
  : option pystr * option pystr * option dict * option pystr * option pystr :=
  (email a, password a, proxies a, api_key a, base_url a).

(** The history of [a'] continues the history of [a]. *)
Definition extends_history (a a' : api) : Prop :=
  exists added, chat_history a' = chat_history a ++ added.

(** What an operation may do to the instance between two states: the
    configuration stays and the history is only appended to. *)
Definition evolves (s s' : state) : Prop :=
  configuration (self s') = configuration (self s)
  /\ extends_history (self s) (self s').

Definition keeps {A} (m : M A) : Prop := forall s, evolves s (snd (m s)).

(** The three calls of a fresh login, in their order. *)
Definition login_calls (email password sid tok : pystr) : list (via * request) :=
  [(Client, SessionId); (Client, AuthToken email password sid); (Client, Cookies tok)].

(** [l] is the beginning of [l']. *)
Definition begins {A} (l l' : list A) : Prop := exists rest, l' = l ++ rest.

(** The headers of chat requests once they have been computed. *)
Definition chat_headers_of (h : dict) : dict :=
  dict_set (py "Content-Type") (VStr (py "application/json"))
    (dict_set (py "Accept") (VStr (py "text/event-stream")) h).

(** [model_class] of the payload. *)
Definition model_class (model : pystr) : pystr :=
  if str_eqb model (py "deepseek-chat") then py "deepseek_chat" else py "deepseek_code".

(** [v["choices"][0]["message"]["content"]] as the interpreter evaluates
    it, with the exception of the first lookup that fails. *)
Definition content_lookup (v : value) : M value :=
  choices <- getitem v (py "choices") ;;
  choice <- getitem0 choices ;;
  msg <- getitem choice (py "message") ;;
  getitem msg (py "content").

(** The instance once [send_message] has made sure of its chat headers. *)
Definition chat_ready (a : api) : api :=
  if truthy (chat_headers a) then a
  else with_chat_headers (Some (chat_headers_of (headers a))) a.

(** The payload and the request of [send_message]. *)
Definition chat_payload (a : api) (message model : pystr) (stream : bool)
    (kwargs : dict) : dict :=
  dict_update
    [(py "message", VStr message);
     (py "stream", VBool stream);
     (py "model_class", VStr (model_class model));
     (py "chat_history", VList (chat_history a))]
    kwargs.

Definition chat_request (a : api) (message model : pystr) (stream : bool)
    (kwargs : dict) : request :=
  Http (py "POST") (chat_url a) (the (chat_headers (chat_ready a)))
       (Some (VDict (chat_payload a message model stream kwargs))).

(** The world after one more call through [self.client]. *)
Definition called (r : request) (w : world) : world :=
  {| cred_file := cred_file w; stdout := stdout w; net := net w ++ [(Client, r)] |}.


(** A service that refuses the chat request, one whose login helper for
    the token fails, and an instance that has already sent a message. *)
Definition refused : response :=
  {| status_code := 429; json_body := Return VNone; frames := [] |}.

Definition refusing_service : utils :=
  {| get_headers := get_headers mock;
     session_id_reply := session_id_reply mock;
     auth_token_reply := fun _ _ _ _ => Raise (HelperError 401 []);
     cookies_reply := cookies_reply mock;
     http_reply := fun _ _ => Return refused;
     raise_for_status := raise_for_status mock;
     is_sentinel := is_sentinel mock;
     is_keep_alive := is_keep_alive mock;
     payload := payload mock |}.

Definition chatting_api : api :=
  instance_after
    (AsyncDeepseekAPI.send_message mock (py "hello") (py "deepseek-chat") false []
       (start keyed_api empty_world)).

(** * Properties *)

(** ** Strings and dictionaries *)

Lemma str_eqb_refl (a : pystr) : str_eqb a a = true.
Proof.
  induction a as [|x a IH]; simpl; [reflexivity|].
  now rewrite N.eqb_refl, IH.
Qed.

Lemma str_eqb_eq (a b : pystr) : str_eqb a b = true <-> a = b.
Proof.
  split.
  - revert b. induction a as [|x a IH]; intros [|y b]; simpl; try discriminate; auto.
    intros H. apply andb_true_iff in H as [Hx Hab].
    apply N.eqb_eq in Hx. subst y. f_equal. now apply IH.
  - intros ->. apply str_eqb_refl.
Qed.

Lemma str_eqb_neq (a b : pystr) : a <> b -> str_eqb a b = false.
Proof.
  intros H. destruct (str_eqb a b) eqn:E; [|reflexivity].
  apply str_eqb_eq in E. contradiction.
Qed.

Lemma dict_get_set_same (k : pystr) (v : value) (d : dict) :
  dict_get k (dict_set k v d) = Some v.
Proof.
  induction d as [|[k' v'] d IH]; simpl.
  - now rewrite str_eqb_refl.
  - destruct (str_eqb k k') eqn:E; simpl; rewrite E; auto.
Qed.

Lemma dict_get_set_other (k k' : pystr) (v : value) (d : dict) :
  k' <> k -> dict_get k' (dict_set k v d) = dict_get k' d.
Proof.
  intros Hne. induction d as [|[k0 v0] d IH]; simpl.
  - now rewrite (str_eqb_neq _ _ Hne).
  - destruct (str_eqb k k0) eqn:E; simpl.
    + apply str_eqb_eq in E. subst k0. now rewrite (str_eqb_neq _ _ Hne).
    + now rewrite IH.
Qed.

Lemma truthy_true {A} (o : option (list A)) :
  truthy o = true <-> exists x l, o = Some (x :: l).
Proof.
  split.
  - destruct o as [[|x l]|]; simpl; try discriminate. eauto.
  - intros (x & l & ->). reflexivity.
Qed.

(** ** Login *)

Ltac run_login :=
  unfold AsyncDeepseekAPI.login, SyncDeepseekAPI.login, start, instance_after,
    world_after, bind, get_self, path_exists, try_except, read_file, json_loads,
    method_get, set_header, update, print, ret, raise; simpl.

(** C1. With a non-empty [api_key], [login] returns at once: the
    [Authorization] header is [Bearer <key>], every other header is as
    before, no network call is made, and neither the credential file nor
    the [credentials] attribute is touched. Both facades do the same. *)
Theorem login_api_key (U : utils) (a : api) (w : world) (key : pystr) :
  api_key a = Some key ->
  key <> [] ->
  let r := AsyncDeepseekAPI.login U (start a w) in
  let bearer := VStr (py "Bearer " ++ key) in
  fst r = Return tt
  /\ dict_get (py "Authorization") (headers (instance_after r)) = Some bearer
  /\ (forall h, h <> py "Authorization" ->
        dict_get h (headers (instance_after r)) = dict_get h (headers a))
  /\ instance_after r =
       with_headers (dict_set (py "Authorization") bearer (headers a)) a
  /\ world_after r = w
  /\ credentials (instance_after r) = credentials a
  /\ SyncDeepseekAPI.login U (start a w) = r.
Proof.
  intros Hkey Hne r bearer. subst r bearer.
  destruct key as [|c key]; [contradiction|].
  run_login. rewrite Hkey. simpl.
  repeat split.
  - apply dict_get_set_same.
  - intros h Hh. now apply dict_get_set_other.
Qed.

Lemma login_api_key_witness :
  api_key keyed_api = Some (py "sk-1")
  /\ dict_get (py "Authorization")
       (headers (instance_after (AsyncDeepseekAPI.login mock (start keyed_api empty_world))))
     = Some (VStr (py "Bearer sk-1")).
Proof.
  split; [reflexivity|].
  apply (login_api_key mock keyed_api empty_world (py "sk-1")); [reflexivity|discriminate].
Defined.

(** The cached path of [login], shared by the statements about it: with
    no [api_key] and a credential file that holds a JSON object, the
    record is stored, its [cookie] entry becomes the [Cookie] header and
    [login] returns. *)
Lemma login_object_cached (U : utils) (a : api) (w : world) (content : pystr) (d : dict) :
  truthy (api_key a) = false ->
  cred_file w = Some (Text content) ->
  Json.loads content = Some (VDict d) ->
  AsyncDeepseekAPI.login U (start a w) =
    (Return tt,
     start (with_headers (dict_set (py "Cookie") (record_cookie d) (headers a))
                         (with_credentials (Some (VDict d)) a)) w)
  /\ SyncDeepseekAPI.login U (start a w) = AsyncDeepseekAPI.login U (start a w).
Proof.
  intros Hkey Hfile Hload. run_login.
  repeat (first [rewrite Hkey | rewrite Hfile | rewrite Hload]; simpl).
  split; reflexivity.
Qed.

(** C2. With no [api_key] and a credential file that parses to a record,
    [login] sets [Cookie] to the record's cookie value and returns; the
    world is as before (no network call, nothing written or printed) and
    [Authorization] is what it was. Both facades do the same. *)
Theorem login_cached (U : utils) (a : api) (w : world) (content : pystr) (d : dict) :
  truthy (api_key a) = false ->
  cred_file w = Some (Text content) ->
  Json.loads content = Some (VDict d) ->
  let r := AsyncDeepseekAPI.login U (start a w) in
  fst r = Return tt
  /\ dict_get (py "Cookie") (headers (instance_after r)) = Some (record_cookie d)
  /\ net (world_after r) = net w
  /\ world_after r = w
  /\ dict_get (py "Authorization") (headers (instance_after r))
     = dict_get (py "Authorization") (headers a)
  /\ headers (instance_after r) = dict_set (py "Cookie") (record_cookie d) (headers a)
  /\ SyncDeepseekAPI.login U (start a w) = r.
Proof.
  intros Hkey Hfile Hload r.
  destruct (login_object_cached U a w content d Hkey Hfile Hload) as [Hrun Hsync].
  subst r. rewrite Hsync, Hrun. unfold instance_after, world_after. simpl.
  repeat split.
  - apply dict_get_set_same.
  - apply dict_get_set_other. discriminate.
Qed.

Lemma login_cached_witness :
  truthy (api_key plain_api) = false
  /\ Json.loads (Json.dumps (VDict saved_record)) = Some (VDict saved_record)
  /\ dict_get (py "Cookie")
       (headers (instance_after (AsyncDeepseekAPI.login mock (start plain_api saved_world))))
     = Some (VStr (py "ck=1")).
Proof.
  split; [reflexivity|]. split; [reflexivity|].
  apply (login_cached mock plain_api saved_world
           (Json.dumps (VDict saved_record)) saved_record); reflexivity.
Defined.

(** Without a usable cache the load leaves every header, the credential
    file and the network alone, and [login] goes on to the fresh login. *)
Lemma login_unusable_cache (U : utils) (a : api) (w : world) :
  truthy (api_key a) = false ->
  usable_cache w = false ->
  exists a' w',
    AsyncDeepseekAPI.login U (start a w) = AsyncDeepseekAPI.fresh_login U a (start a' w')
    /\ SyncDeepseekAPI.login U (start a w) = SyncDeepseekAPI.fresh_login U a (start a' w')
    /\ headers a' = headers a /\ net w' = net w /\ cred_file w' = cred_file w.
Proof.
  intros Hkey Hcache. unfold usable_cache in Hcache. run_login. rewrite Hkey.
  destruct w as [f out calls]; simpl in *.
  destruct f as [[content|]|]; simpl.
  - destruct (Json.loads content) as [v|]; simpl.
    + destruct v; try discriminate; simpl; eexists _, _;
        (split; [reflexivity|]); (split; [reflexivity|]); simpl; auto.
    + eexists _, _; (split; [reflexivity|]); (split; [reflexivity|]); simpl; auto.
  - eexists _, _; (split; [reflexivity|]); (split; [reflexivity|]); simpl; auto.
  - eexists _, _; (split; [reflexivity|]); (split; [reflexivity|]); simpl; auto.
Qed.

Lemma fresh_login_config_error (U : utils) (a : api) (s : state) :
  truthy (email a) = false \/ truthy (password a) = false ->
  AsyncDeepseekAPI.fresh_login U a s = (Raise config_error, s)
  /\ SyncDeepseekAPI.fresh_login U a s = (Raise config_error, s).
Proof.
  intros H. unfold AsyncDeepseekAPI.fresh_login, SyncDeepseekAPI.fresh_login.
  replace (negb (truthy (email a)) || negb (truthy (password a))) with true.
  - split; reflexivity.
  - destruct H as [H|H]; rewrite H; simpl; [reflexivity|now rewrite orb_true_r].
Qed.

(** C3. With no [api_key], no usable cached credential file, and the
    email or the password missing, [login] raises the configuration
    error [ValueError] and the list of network calls is as it was. Both
    facades do the same. *)
Theorem login_missing_credentials (U : utils) (a : api) (w : world) :
  truthy (api_key a) = false ->
  usable_cache w = false ->
  truthy (email a) = false \/ truthy (password a) = false ->
  let r := AsyncDeepseekAPI.login U (start a w) in
  fst r = Raise config_error
  /\ net (world_after r) = net w
  /\ cred_file (world_after r) = cred_file w
  /\ headers (instance_after r) = headers a
  /\ SyncDeepseekAPI.login U (start a w) = r.
Proof.
  intros Hkey Hcache Hmissing r. subst r.
  destruct (login_unusable_cache U a w Hkey Hcache)
    as (a' & w' & Hasync & Hsync & Hh & Hn & Hf).
  destruct (fresh_login_config_error U a (start a' w') Hmissing) as [Ea Es].
  rewrite Hsync, Hasync, Es, Ea. unfold instance_after, world_after. simpl. auto.
Qed.

Lemma login_missing_credentials_witness :
  usable_cache corrupt_world = false
  /\ truthy (password no_password_api) = false
  /\ fst (AsyncDeepseekAPI.login mock (start no_password_api corrupt_world))
     = Raise config_error.
Proof.
  split; [reflexivity|]. split; [reflexivity|].
  apply (login_missing_credentials mock no_password_api corrupt_world);
    [reflexivity | reflexivity | right; reflexivity].
Defined.

(** C5. A credential file whose content is not JSON does not make
    [login] raise at the load: one diagnostic is printed and [login]
    continues exactly as the fresh login does, which is also what it does
    when the file is absent; with the email or the password missing the
    outcome is the configuration error. Both facades do the same. *)
Theorem login_corrupt_cache (U : utils) (a : api) (w : world) (content : pystr) :
  truthy (api_key a) = false ->
  cred_file w = Some (Text content) ->
  Json.loads content = None ->
  let diagnosed := with_stdout (stdout w ++ [ErrorLoadingCredentials JSONDecodeError]) w in
  let absent := with_file None w in
  AsyncDeepseekAPI.login U (start a w)
    = AsyncDeepseekAPI.fresh_login U a (start a diagnosed)
  /\ AsyncDeepseekAPI.login U (start a absent)
    = AsyncDeepseekAPI.fresh_login U a (start a absent)
  /\ (truthy (email a) = false \/ truthy (password a) = false ->
      AsyncDeepseekAPI.login U (start a w) = (Raise config_error, start a diagnosed))
  /\ SyncDeepseekAPI.login U (start a w)
    = SyncDeepseekAPI.fresh_login U a (start a diagnosed)
  /\ SyncDeepseekAPI.login U (start a w) = AsyncDeepseekAPI.login U (start a w).
Proof.
  intros Hkey Hfile Hload diagnosed absent.
  assert (Ha : AsyncDeepseekAPI.login U (start a w)
               = AsyncDeepseekAPI.fresh_login U a (start a diagnosed)).
  { unfold diagnosed, with_stdout. run_login.
    repeat (first [rewrite Hkey | rewrite Hfile | rewrite Hload]; simpl).
    reflexivity. }
  assert (Hs : SyncDeepseekAPI.login U (start a w)
               = SyncDeepseekAPI.fresh_login U a (start a diagnosed)).
  { unfold diagnosed, with_stdout. run_login.
    repeat (first [rewrite Hkey | rewrite Hfile | rewrite Hload]; simpl).
    reflexivity. }
  split; [exact Ha|]. split; [|split; [|split; [exact Hs|]]].
  - run_login. rewrite Hkey. reflexivity.
  - intros Hmissing. rewrite Ha.
    apply (fresh_login_config_error U a (start a diagnosed) Hmissing).
  - rewrite Hs, Ha. reflexivity.
Qed.

Lemma login_corrupt_cache_witness :
  Json.loads (py "{not json") = None
  /\ AsyncDeepseekAPI.login mock (start plain_api corrupt_world)
     = AsyncDeepseekAPI.fresh_login mock plain_api
         (start plain_api
            (with_stdout (stdout corrupt_world ++ [ErrorLoadingCredentials JSONDecodeError])
                         corrupt_world)).
Proof.
  assert (Hload : Json.loads (py "{not json") = None) by (vm_compute; reflexivity).
  split; [exact Hload|].
  exact (proj1 (login_corrupt_cache mock plain_api corrupt_world (py "{not json")
                  eq_refl eq_refl Hload)).
Defined.

(** C6, as stated, fails: a cached record with [session_id] alone parses
    and lacks two fields, yet [login] uses it. It returns with the
    [Cookie] header set to [None] and without a single network call,
    whereas the fresh login from the same state makes its three calls. *)
Lemma login_partial_record_is_used :
  let s := start plain_api partial_world in
  let r := AsyncDeepseekAPI.login mock s in
  Json.loads (Json.dumps (VDict partial_record)) = Some (VDict partial_record)
  /\ lacks_field partial_record = true
  /\ fst r = Return tt
  /\ dict_get (py "Cookie") (headers (instance_after r)) = Some VNone
  /\ credentials (instance_after r) = Some (VDict partial_record)
  /\ net (world_after r) = []
  /\ List.length (net (world_after (AsyncDeepseekAPI.fresh_login mock plain_api s))) = 3%nat
  /\ r <> AsyncDeepseekAPI.fresh_login mock plain_api s.
Proof.
  vm_compute. repeat split. discriminate.
Qed.

(** C6, amended. A cached record that is a JSON object but lacks one of
    [session_id], [auth_token] and [cookie] is used all the same: [login]
    stores it, sets [Cookie] to its cookie entry ([None] when that is the
    missing field), leaves the world as it was (no network call, no fresh
    login) and returns. Both facades do the same. *)
Theorem login_partial_record (U : utils) (a : api) (w : world) (content : pystr) (d : dict) :
  truthy (api_key a) = false ->
  cred_file w = Some (Text content) ->
  Json.loads content = Some (VDict d) ->
  lacks_field d = true ->
  let r := AsyncDeepseekAPI.login U (start a w) in
  fst r = Return tt
  /\ credentials (instance_after r) = Some (VDict d)
  /\ headers (instance_after r) = dict_set (py "Cookie") (record_cookie d) (headers a)
  /\ (has_key "cookie" d = false ->
      dict_get (py "Cookie") (headers (instance_after r)) = Some VNone)
  /\ world_after r = w
  /\ SyncDeepseekAPI.login U (start a w) = r.
Proof.
  intros Hkey Hfile Hload _ r.
  destruct (login_object_cached U a w content d Hkey Hfile Hload) as [Hrun Hsync].
  subst r. rewrite Hsync, Hrun. unfold instance_after, world_after. simpl.
  repeat split.
  intros Hmiss. rewrite dict_get_set_same. f_equal.
  unfold has_key in Hmiss. unfold record_cookie.
  now destruct (dict_get (py "cookie") d).
Qed.

Lemma login_partial_record_witness :
  lacks_field partial_record = true
  /\ headers (instance_after (AsyncDeepseekAPI.login mock (start plain_api partial_world)))
     = dict_set (py "Cookie") VNone (headers plain_api).
Proof.
  split; [reflexivity|].
  apply (login_partial_record mock plain_api partial_world
           (Json.dumps (VDict partial_record)) partial_record); reflexivity.
Defined.

(** ** Sending a message *)

Ltac run_send :=
  unfold AsyncDeepseekAPI.send_message, SyncDeepseekAPI.send_message, start,
    instance_after, world_after, http, call, lift, bind, get_self, update,
    append_history, getitem, getitem0, ret, raise; simpl.



(** A reply without [choices] passes the status check and then fails at
    the lookup: the user's turn is already in the history when the
    [KeyError] is raised. *)
Example send_message_reply_without_choices :
  let r := AsyncDeepseekAPI.send_message empty_reply_service (py "hello")
             (py "deepseek-chat") false [] (start keyed_api empty_world) in
  fst r = Raise (KeyError (VStr (py "choices")))
  /\ chat_history (instance_after r) = [turn "user" (VStr (py "hello"))].
Proof. vm_compute. split; reflexivity. Qed.

(** C8. A streamed [send_message] leaves the chat history as it was,
    whatever the service answers and whether the call returns or raises.
    Both facades do the same. *)
Theorem send_message_stream_keeps_history (U : utils) (a : api) (w : world)
    (message model : pystr) (kwargs : dict) :
  chat_history
    (instance_after (AsyncDeepseekAPI.send_message U message model true kwargs (start a w)))
  = chat_history a
  /\ chat_history
       (instance_after (SyncDeepseekAPI.send_message U message model true kwargs (start a w)))
     = chat_history a.
Proof.
  run_send.
  destruct (truthy (chat_headers a)); simpl;
    match goal with
    | |- context [http_reply U ?p ?q] => destruct (http_reply U p q) as [resp|e]
    end; simpl; auto;
    destruct (raise_for_status U resp); simpl; auto.
Qed.

(** ** Stream Decoder *)

Lemma process_stream_response_stops (U : utils) (pre post : list pystr) (s : pystr) :
  is_sentinel U s = true ->
  StreamDecoder.process_stream_response U (pre ++ s :: post)
  = StreamDecoder.process_stream_response U pre.
Proof.
  intros Hs. induction pre as [|f pre IH]; simpl.
  - unfold StreamDecoder.classify. now rewrite Hs.
  - destruct (StreamDecoder.classify U f); [reflexivity|exact IH|now rewrite IH].
Qed.

(** C4. The decoder yields the parsed payloads of the valid frames that
    come before the first sentinel frame, in their order; a frame that is
    empty, a keep-alive ping or not JSON is passed over and the decoding
    goes on; whatever stands at or after a sentinel adds nothing. *)
Theorem process_stream_response_spec (U : utils) (fs : list pystr) :
  StreamDecoder.process_stream_response U fs
  = StreamDecoder.parsed_frames U (StreamDecoder.before_sentinel U fs)
  /\ (forall f rest,
        is_sentinel U f = false ->
        StreamDecoder.valid_frame U f = None ->
        StreamDecoder.process_stream_response U (f :: rest)
        = StreamDecoder.process_stream_response U rest)
  /\ (forall pre s post,
        is_sentinel U s = true ->
        StreamDecoder.process_stream_response U (pre ++ s :: post)
        = StreamDecoder.process_stream_response U pre).
Proof.
  split; [|split].
  - induction fs as [|f fs IH]; simpl; [reflexivity|].
    unfold StreamDecoder.classify, StreamDecoder.valid_frame in *.
    destruct (is_sentinel U f); simpl; [reflexivity|].
    unfold StreamDecoder.valid_frame.
    destruct f as [|c f]; [exact IH|].
    destruct (is_keep_alive U (c :: f)); [exact IH|].
    destruct (Json.loads (payload U (c :: f))); [now rewrite IH|exact IH].
  - intros f rest Hs Hv. simpl.
    unfold StreamDecoder.classify, StreamDecoder.valid_frame in *. rewrite Hs.
    destruct f as [|c f]; [reflexivity|].
    destruct (is_keep_alive U (c :: f)); [reflexivity|].
    now rewrite Hv.
  - intros pre s post. apply process_stream_response_stops.
Qed.

(** The sequence of the specification: a valid frame, an empty line, a
    malformed frame, the sentinel, one more valid frame. *)
Example process_stream_response_example :
  let valid := py "data: " ++ Json.dumps hi_reply in
  StreamDecoder.process_stream_response mock
    [valid; []; py "data: {oops"; py "data: [DONE]"; valid]
  = [hi_reply].
Proof. reflexivity. Qed.

(** ** The two facades *)

(** Where the two classes differ: [get_models] of the non-blocking
    facade opens a session and passes it the https proxy, the blocking
    one goes through [self.client]; the request is the same. *)
Example get_models_transports :
  let sa := AsyncDeepseekAPI.get_models mock (start proxied_api empty_world) in
  let sb := SyncDeepseekAPI.get_models mock (start proxied_api empty_world) in
  map fst (net (world_after sa)) = [Session (VStr (py "http://proxy:8080"))]
  /\ map fst (net (world_after sb)) = [Client]
  /\ map snd (net (world_after sa)) = map snd (net (world_after sb))
  /\ fst sa = fst sb.
Proof. vm_compute. repeat split. Qed.

(** ** The json module on examples *)

Example loads_nested :
  Json.loads (py " [[[1]], 2.5e3, [-0, [null, [true]]], {}, NaN] ")
  = Some (VList [VList [VList [VInt 1]]; VFloat (py "2.5e3");
                 VList [VInt 0; VList [VNone; VList [VBool true]]];
                 VDict []; VFloat (py "NaN")]).
Proof. vm_compute. reflexivity. Qed.

Example loads_rejects :
  map Json.loads [py "[1,]"; py "01"; py "1."; py "-"; py "[1 2]"; py "nul"; py "{} x"; []]
  = [None; None; None; None; None; None; None; None].
Proof. vm_compute. reflexivity. Qed.

Example loads_last_key_wins :
  Json.loads (Json.dumps (VDict [(py "k", VInt 1); (py "j", VNone); (py "k", VInt 2)]))
  = Some (VDict [(py "k", VInt 2); (py "j", VNone)]).
Proof. vm_compute. reflexivity. Qed.

(** A line feed, a quote, an e with acute accent and a character above
    the basic plane: two short escapes, a [\u] escape and a surrogate
    pair. *)
Example dumps_escapes :
  Json.dumps (VStr [104; 10; 34; 233; 128512])
  = [34; 104] ++ py "\n" ++ [92; 34] ++ Json.u_escape 233
    ++ Json.u_escape 55357 ++ Json.u_escape 56832 ++ [34].
Proof. vm_compute. reflexivity. Qed.

(** ** The json round trip *)

Lemma hexval_hexdigit (d : N) : d < 16 -> Json.hexval (Json.hexdigit d) = Some d.
Proof.
  intros H.
  assert (E : d = 0 \/ d = 1 \/ d = 2 \/ d = 3 \/ d = 4 \/ d = 5 \/ d = 6 \/ d = 7
              \/ d = 8 \/ d = 9 \/ d = 10 \/ d = 11 \/ d = 12 \/ d = 13 \/ d = 14
              \/ d = 15) by lia.
  repeat (destruct E as [->|E]; [reflexivity|]). subst d. reflexivity.
Qed.

Lemma nibbles (n : N) :
  n < 65536 ->
  (((N.shiftr n 12 mod 16) * 16 + N.shiftr n 8 mod 16) * 16 + N.shiftr n 4 mod 16) * 16
  + n mod 16 = n.
Proof.
  intros H. rewrite !N.shiftr_div_pow2.
  change (2 ^ 12) with 4096. change (2 ^ 8) with 256. change (2 ^ 4) with 16.
  replace (n / 256) with (n / 16 / 16) by (now rewrite N.Div0.div_div).
  replace (n / 4096) with (n / 16 / 16 / 16) by (now rewrite !N.Div0.div_div).
  pose proof (N.div_mod n 16 ltac:(discriminate)) as E0.
  pose proof (N.mod_lt n 16 ltac:(discriminate)) as L0.
  pose proof (N.div_mod (n / 16) 16 ltac:(discriminate)) as E1.
  pose proof (N.mod_lt (n / 16) 16 ltac:(discriminate)) as L1.
  pose proof (N.div_mod (n / 16 / 16) 16 ltac:(discriminate)) as E2.
  pose proof (N.mod_lt (n / 16 / 16) 16 ltac:(discriminate)) as L2.
  generalize dependent (n mod 16). intros r0 E0 L0.
  generalize dependent (n / 16 mod 16). intros r1 E1 L1.
  generalize dependent (n / 16 / 16 mod 16). intros r2 E2 L2.
  generalize dependent (n / 16 / 16 / 16). intros c E2.
  generalize dependent (n / 16 / 16). intros b E1 E2.
  generalize dependent (n / 16). intros a E0 E1.
  assert (Lc : c < 16) by lia.
  rewrite (N.mod_small c 16 Lc). lia.
Qed.

Lemma lor_disjoint (k y : N) : y < 1024 -> N.lor (k * 1024) y = k * 1024 + y.
Proof.
  intros Hy.
  assert (Hland : N.land (k * 1024) y = 0).
  { apply N.bits_inj. intros m. rewrite N.land_spec, N.bits_0.
    destruct (N.lt_ge_cases m 10) as [Hm|Hm].
    - change 1024 with (2 ^ 10). now rewrite N.mul_pow2_bits_low.
    - apply andb_false_intro2.
      destruct (N.eq_dec y 0) as [->|Hy0]; [apply N.bits_0|].
      apply N.bits_above_log2.
      assert (N.log2 y < 10); [|lia].
      apply N.log2_lt_pow2; [lia|exact Hy]. }
  rewrite <- (N.lxor_lor _ _ Hland). symmetry. now apply N.add_nocarry_lxor.
Qed.

Lemma high_surrogate_of (c : N) :
  65536 <= c -> c < 1114112 ->
  N.lor 55296 (N.land (N.shiftr (c - 65536) 10) 1023) = 55296 + (c - 65536) / 1024
  /\ (c - 65536) / 1024 < 1024.
Proof.
  intros Hlo Hhi. set (n := c - 65536).
  assert (Hn : n < 1048576) by (subst n; lia).
  assert (Hq : n / 1024 < 1024) by (apply N.Div0.div_lt_upper_bound; lia).
  split; [|exact Hq].
  rewrite N.shiftr_div_pow2. change (2 ^ 10) with 1024.
  change 1023 with (N.ones 10). rewrite N.land_ones. change (2 ^ 10) with 1024.
  rewrite (N.mod_small _ _ Hq).
  change 55296 with (54 * 1024). now apply lor_disjoint.
Qed.

Lemma low_surrogate_of (c : N) :
  N.lor 56320 (N.land (c - 65536) 1023) = 56320 + (c - 65536) mod 1024.
Proof.
  change 1023 with (N.ones 10). rewrite N.land_ones. change (2 ^ 10) with 1024.
  change 56320 with (55 * 1024). apply lor_disjoint.
  apply N.mod_lt. discriminate.
Qed.

Lemma join_surrogates (q r : N) :
  r < 1024 ->
  65536 + N.lor (N.shiftl (55296 + q - 55296) 10) (56320 + r - 56320)
  = 65536 + (q * 1024 + r).
Proof.
  intros Hr. replace (55296 + q - 55296) with q by lia.
  replace (56320 + r - 56320) with r by lia.
  rewrite N.shiftl_mul_pow2. change (2 ^ 10) with 1024.
  now rewrite lor_disjoint.
Qed.

Lemma decode_nibbles (n : N) :
  n < 65536 ->
  Json.decode_uXXXX (Json.hexdigit (N.shiftr n 12 mod 16)) (Json.hexdigit (N.shiftr n 8 mod 16))
    (Json.hexdigit (N.shiftr n 4 mod 16)) (Json.hexdigit (n mod 16)) = Some n.
Proof.
  intros H. unfold Json.decode_uXXXX.
  rewrite !hexval_hexdigit by (apply N.mod_lt; discriminate).
  now rewrite nibbles.
Qed.

Lemma scanstring_u_eq (h1 h2 h3 h4 : N) (t : pystr) :
  Json.scanstring (92 :: 117 :: h1 :: h2 :: h3 :: h4 :: t)
  = match Json.decode_uXXXX h1 h2 h3 h4 with
    | None => None
    | Some uni =>
        if Json.is_high_surrogate uni then
          match t with
          | b :: u :: l1 :: l2 :: l3 :: l4 :: rest3 =>
              if (b =? 92) && (u =? 117) then
                match Json.decode_uXXXX l1 l2 l3 l4 with
                | None => None
                | Some uni2 =>
                    if Json.is_low_surrogate uni2 then
                      Json.push (65536 + N.lor (N.shiftl (uni - 55296) 10) (uni2 - 56320))
                                (Json.scanstring rest3)
                    else Json.push uni (Json.scanstring t)
                end
              else Json.push uni (Json.scanstring t)
          | _ => Json.push uni (Json.scanstring t)
          end
        else Json.push uni (Json.scanstring t)
    end.
Proof. reflexivity. Qed.

Lemma scanstring_u (h1 h2 h3 h4 uni : N) (t : pystr) :
  Json.decode_uXXXX h1 h2 h3 h4 = Some uni ->
  (Json.is_high_surrogate uni = true -> joins_or_fails t = false) ->
  Json.scanstring (92 :: 117 :: h1 :: h2 :: h3 :: h4 :: t)
  = Json.push uni (Json.scanstring t).
Proof.
  intros Hd Hsafe. rewrite scanstring_u_eq, Hd.
  destruct (Json.is_high_surrogate uni); [|reflexivity].
  specialize (Hsafe eq_refl).
  destruct t as [|b [|u [|l1 [|l2 [|l3 [|l4 t']]]]]]; try reflexivity.
  unfold joins_or_fails in Hsafe.
  destruct (b =? 92); [|reflexivity].
  destruct (u =? 117); [|reflexivity].
  destruct (Json.decode_uXXXX l1 l2 l3 l4) as [uni2|]; [|discriminate].
  cbn [andb] in *. now rewrite Hsafe.
Qed.

Lemma scanstring_pair (h1 h2 h3 h4 l1 l2 l3 l4 hi lo : N) (t : pystr) :
  Json.decode_uXXXX h1 h2 h3 h4 = Some hi ->
  Json.decode_uXXXX l1 l2 l3 l4 = Some lo ->
  Json.is_high_surrogate hi = true ->
  Json.is_low_surrogate lo = true ->
  Json.scanstring (92 :: 117 :: h1 :: h2 :: h3 :: h4 :: 92 :: 117 :: l1 :: l2 :: l3 :: l4 :: t)
  = Json.push (65536 + N.lor (N.shiftl (hi - 55296) 10) (lo - 56320)) (Json.scanstring t).
Proof.
  intros Hh Hl Hhi Hlo. rewrite scanstring_u_eq, Hh, Hhi.
  change ((92 =? 92) && (117 =? 117)) with true. cbv iota.
  now rewrite Hl, Hlo.
Qed.

Lemma scanstring_u_escape_pair (hi lo : N) (t : pystr) :
  hi < 65536 -> lo < 65536 ->
  Json.is_high_surrogate hi = true ->
  Json.is_low_surrogate lo = true ->
  Json.scanstring (Json.u_escape hi ++ Json.u_escape lo ++ t)
  = Json.push (65536 + N.lor (N.shiftl (hi - 55296) 10) (lo - 56320)) (Json.scanstring t).
Proof.
  intros Hh Hl Hhi Hlo. unfold Json.u_escape, Json.BACKSLASH. cbn [app].
  apply scanstring_pair; try assumption; now apply decode_nibbles.
Qed.

Lemma scanstring_cons (c : N) (t : pystr) :
  c <> 92 ->
  Json.scanstring (c :: t)
  = if c =? 34 then Some ([], t)
    else if c <? 32 then None
    else Json.push c (Json.scanstring t).
Proof.
  intros Hb.
  change (Json.scanstring (c :: t))
    with (if c =? 34 then Some ([], t)
          else if c =? 92 then Json.scanstring (92 :: t)
          else if c <? 32 then None
          else Json.push c (Json.scanstring t)).
  destruct (N.eqb_spec c 92); [contradiction|reflexivity].
Qed.

Lemma scanstring_plain (c : N) (t : pystr) :
  c <> 34 -> c <> 92 -> 32 <= c ->
  Json.scanstring (c :: t) = Json.push c (Json.scanstring t).
Proof.
  intros Hq Hb Hc. rewrite scanstring_cons by exact Hb.
  destruct (N.eqb_spec c 34); [contradiction|].
  destruct (N.ltb_spec c 32); [lia|reflexivity].
Qed.

Lemma scanstring_escape_char (c : N) (t : pystr) :
  c < 1114112 ->
  (Json.is_high_surrogate c = true -> joins_or_fails t = false) ->
  Json.scanstring (Json.escape_char c ++ t) = Json.push c (Json.scanstring t).
Proof.
  intros Hc Hsafe. unfold Json.escape_char, Json.QUOTE, Json.BACKSLASH.
  destruct (N.eqb_spec c 34) as [->|H34]; [reflexivity|].
  destruct (N.eqb_spec c 92) as [->|H92]; [reflexivity|].
  destruct (N.eqb_spec c 10) as [->|H10]; [reflexivity|].
  destruct (N.eqb_spec c 13) as [->|H13]; [reflexivity|].
  destruct (N.eqb_spec c 9) as [->|H9]; [reflexivity|].
  destruct (N.eqb_spec c 8) as [->|H8]; [reflexivity|].
  destruct (N.eqb_spec c 12) as [->|H12]; [reflexivity|].
  destruct (N.leb_spec 32 c) as [Hlo|Hlo]; simpl andb.
  - destruct (N.leb_spec c 126) as [Hhi|Hhi].
    + now apply scanstring_plain.
    + destruct (N.ltb_spec c 65536) as [Hb|Hb].
      * apply scanstring_u; [now apply decode_nibbles|exact Hsafe].
      * cbv zeta.
        destruct (high_surrogate_of c Hb Hc) as [E1 Hq].
        rewrite E1, low_surrogate_of.
        assert (Hr : (c - 65536) mod 1024 < 1024) by (apply N.mod_lt; discriminate).
        set (q := (c - 65536) / 1024) in *. set (r := (c - 65536) mod 1024) in *.
        rewrite <- app_assoc, scanstring_u_escape_pair.
        -- rewrite join_surrogates by exact Hr. f_equal.
           subst q r. pose proof (N.div_mod (c - 65536) 1024 ltac:(discriminate)). lia.
        -- lia.
        -- lia.
        -- unfold Json.is_high_surrogate.
           apply andb_true_intro; split; apply N.leb_le; lia.
        -- unfold Json.is_low_surrogate.
           apply andb_true_intro; split; apply N.leb_le; lia.
  - destruct (N.ltb_spec c 65536) as [Hb|Hb]; [|lia].
    apply scanstring_u; [now apply decode_nibbles|exact Hsafe].
Qed.

Lemma escape_char_head (c : N) (t : pystr) :
  c < 1114112 -> Json.is_low_surrogate c = false ->
  joins_or_fails (Json.escape_char c ++ t) = false.
Proof.
  intros Hc Hlow. unfold Json.escape_char, Json.QUOTE, Json.BACKSLASH.
  destruct (N.eqb_spec c 34) as [->|H34]; [reflexivity|].
  destruct (N.eqb_spec c 92) as [->|H92]; [reflexivity|].
  destruct (N.eqb_spec c 10) as [->|H10]; [reflexivity|].
  destruct (N.eqb_spec c 13) as [->|H13]; [reflexivity|].
  destruct (N.eqb_spec c 9) as [->|H9]; [reflexivity|].
  destruct (N.eqb_spec c 8) as [->|H8]; [reflexivity|].
  destruct (N.eqb_spec c 12) as [->|H12]; [reflexivity|].
  assert (Hu : forall n, n < 65536 -> Json.is_low_surrogate n = false ->
                 joins_or_fails (Json.u_escape n ++ t) = false).
  { intros n Hn Hl. unfold Json.u_escape, joins_or_fails. cbn [app].
    rewrite (decode_nibbles n Hn), Hl. reflexivity. }
  destruct ((32 <=? c) && (c <=? 126)) eqn:Hp.
  - cbn [app joins_or_fails]. destruct (N.eqb_spec c 92); [contradiction|reflexivity].
  - destruct (N.ltb_spec c 65536) as [Hb|Hb]; [now apply Hu|].
    cbv zeta. rewrite <- app_assoc.
    destruct (high_surrogate_of c Hb Hc) as [E1 Hq]. rewrite E1.
    apply Hu; [lia|].
    unfold Json.is_low_surrogate. apply andb_false_intro1. apply N.leb_gt. lia.
Qed.

Lemma valid_str_cons (c : N) (s : pystr) :
  valid_str (c :: s) = true ->
  c < 1114112 /\ valid_str s = true
  /\ (Json.is_high_surrogate c = true ->
      match s with c' :: _ => Json.is_low_surrogate c' = false | [] => True end).
Proof.
  unfold valid_str. cbn [is_str forallb no_split_pair]. intros H.
  apply andb_true_iff in H as [H1 H2]. apply andb_true_iff in H1 as [Hc Hs].
  apply N.ltb_lt in Hc. split; [exact Hc|].
  destruct s as [|c' s'].
  - split; [reflexivity|trivial].
  - apply andb_true_iff in H2 as [Hp Hn]. split.
    + apply andb_true_iff. split; assumption.
    + intros Hh. rewrite Hh in Hp. cbn [andb negb] in Hp.
      now destruct (Json.is_low_surrogate c').
Qed.

Lemma scanstring_escaped (s rest : pystr) :
  valid_str s = true ->
  Json.scanstring (flat_map Json.escape_char s ++ Json.QUOTE :: rest) = Some (s, rest).
Proof.
  induction s as [|c s IH]; intros Hv.
  - reflexivity.
  - apply valid_str_cons in Hv as (Hc & Hs & Hpair).
    cbn [flat_map]. rewrite <- app_assoc.
    rewrite scanstring_escape_char, (IH Hs); [reflexivity|exact Hc|].
    intros Hh. specialize (Hpair Hh). destruct s as [|c' s'].
    + reflexivity.
    + apply valid_str_cons in Hs as (Hc' & _ & _).
      cbn [flat_map]. rewrite <- app_assoc. now apply escape_char_head.
Qed.

Lemma scan_once_string (fuel : nat) (s rest : pystr) :
  valid_str s = true ->
  Json.scan_once (S fuel) (Json.encode_basestring_ascii s ++ rest) = Some (VStr s, rest).
Proof.
  intros Hv. unfold Json.encode_basestring_ascii.
  cbn [app]. rewrite <- app_assoc. cbn [app].
  change (Json.scan_once (S fuel) (Json.QUOTE :: ?t))
    with (match Json.scanstring t with
          | Some (str, r) => Some (VStr str, r)
          | None => None
          end).
  now rewrite scanstring_escaped.
Qed.

(** One member of an object whose value is a string. *)
Lemma JSONObject_member (fuel : nat) (pairs : dict) (key s t : pystr) :
  valid_str key = true -> valid_str s = true ->
  Json.JSONObject (S (S fuel)) pairs
    (Json.encode_basestring_ascii key ++ [Json.COLON; Json.SPACE]
     ++ Json.encode_basestring_ascii s ++ t)
  = match Json.skip_ws t with
    | [] => None
    | d :: t' =>
        if d =? Json.RBRACE then Some (VDict (dict_set key (VStr s) pairs), t')
        else if d =? Json.COMMA then
          Json.JSONObject (S fuel) (dict_set key (VStr s) pairs) (Json.skip_ws t')
        else None
    end.
Proof.
  intros Hk Hs.
  unfold Json.encode_basestring_ascii at 1. cbn [app]. rewrite <- app_assoc. cbn [app].
  change (Json.JSONObject (S (S fuel)) pairs (Json.QUOTE :: ?u))
    with (match Json.scanstring u with
          | None => None
          | Some (key, s2) =>
              match Json.skip_ws s2 with
              | [] => None
              | c :: s3 =>
                  if c =? Json.COLON then
                    match Json.scan_once (S fuel) (Json.skip_ws s3) with
                    | None => None
                    | Some (v, s4) =>
                        match Json.skip_ws s4 with
                        | [] => None
                        | d :: s5 =>
                            if d =? Json.RBRACE
                            then Some (VDict (dict_set key v pairs), s5)
                            else if d =? Json.COMMA
                                 then Json.JSONObject (S fuel) (dict_set key v pairs)
                                        (Json.skip_ws s5)
                                 else None
                        end
                    end
                  else None
              end
          end).
  rewrite (scanstring_escaped key _ Hk).
  change (Json.skip_ws (Json.COLON :: Json.SPACE :: ?u))
    with (Json.COLON :: Json.SPACE :: u).
  change (Json.COLON =? Json.COLON) with true. cbv iota.
  change (Json.skip_ws (Json.SPACE :: Json.encode_basestring_ascii s ++ t))
    with (Json.encode_basestring_ascii s ++ t).
  now rewrite (scan_once_string fuel s t Hs).
Qed.

Lemma dumps_record (sid tok ck : pystr) :
  Json.dumps (credentials_record sid tok ck) = record_text sid tok ck.
Proof.
  unfold credentials_record, record_text.
  cbn [Json.dumps map Json.join_comma fst snd].
  f_equal. rewrite <- !app_assoc. reflexivity.
Qed.

Lemma loads_record_text (sid tok ck : pystr) :
  valid_str sid = true -> valid_str tok = true -> valid_str ck = true ->
  Json.loads (record_text sid tok ck) = Some (credentials_record sid tok ck).
Proof.
  intros Hs Ht Hc.
  assert (Hlen : exists f, List.length (record_text sid tok ck) = (4 + f)%nat).
  { exists (List.length (record_text sid tok ck) - 4)%nat.
    enough (4 <= List.length (record_text sid tok ck))%nat by lia.
    unfold record_text, Json.encode_basestring_ascii. cbn [List.length app].
    rewrite !length_app. cbn [List.length]. lia. }
  destruct Hlen as [f Hlen].
  change (Json.loads (record_text sid tok ck))
    with (match Json.scan_once (S (List.length (record_text sid tok ck)))
                  (record_text sid tok ck) with
          | Some (v, rest) =>
              match Json.skip_ws rest with
              | [] => Some v
              | _ :: _ => None
              end
          | None => None
          end).
  rewrite Hlen. unfold record_text at 1.
  change (Json.scan_once (S (4 + f)) (Json.LBRACE :: Json.encode_basestring_ascii ?k ++ ?u))
    with (Json.JSONObject (S (S (S (S f)))) [] (Json.encode_basestring_ascii k ++ u)).
  rewrite JSONObject_member by (reflexivity || assumption).
  change (Json.skip_ws (Json.COMMA :: Json.SPACE :: Json.encode_basestring_ascii ?k ++ ?u))
    with (Json.COMMA :: Json.SPACE :: Json.encode_basestring_ascii k ++ u).
  cbv iota. change (Json.COMMA =? Json.RBRACE) with false.
  change (Json.COMMA =? Json.COMMA) with true. cbv iota.
  change (Json.skip_ws (Json.SPACE :: Json.encode_basestring_ascii ?k ++ ?u))
    with (Json.encode_basestring_ascii k ++ u).
  rewrite JSONObject_member by (reflexivity || assumption).
  change (Json.skip_ws (Json.COMMA :: Json.SPACE :: Json.encode_basestring_ascii ?k ++ ?u))
    with (Json.COMMA :: Json.SPACE :: Json.encode_basestring_ascii k ++ u).
  cbv iota. change (Json.COMMA =? Json.RBRACE) with false.
  change (Json.COMMA =? Json.COMMA) with true. cbv iota.
  change (Json.skip_ws (Json.SPACE :: Json.encode_basestring_ascii ?k ++ ?u))
    with (Json.encode_basestring_ascii k ++ u).
  rewrite JSONObject_member by (reflexivity || assumption).
  reflexivity.
Qed.

Lemma loads_dumps_record (sid tok ck : pystr) :
  valid_str sid = true -> valid_str tok = true -> valid_str ck = true ->
  Json.loads (Json.dumps (credentials_record sid tok ck))
  = Some (credentials_record sid tok ck).
Proof. intros. rewrite dumps_record. now apply loads_record_text. Qed.

(** The decoder joins a surrogate pair that the encoder wrote for two
    separate code points. *)
Example loads_dumps_split_pair :
  Json.dumps (VStr split_pair) = [34; 92; 117; 100; 56; 51; 100; 92; 117; 100; 101; 48; 48; 34]
  /\ Json.loads (Json.dumps (VStr split_pair)) = Some (VStr [128512]).
Proof. split; vm_compute; reflexivity. Qed.

(** A fresh login that returns has stored the three helper results and
    written their record to the credential file. *)
Lemma fresh_login_saves (U : utils) (a : api) (s0 s1 : state) :
  AsyncDeepseekAPI.fresh_login U a s0 = (Return tt, s1) ->
  exists sid tok ck,
    credentials (self s1) = Some (credentials_record sid tok ck)
    /\ cred_file (env s1) = Some (Text (Json.dumps (credentials_record sid tok ck)))
    /\ session_id (self s1) = Some sid
    /\ auth_token (self s1) = Some tok
    /\ cookie (self s1) = Some ck.
Proof.
  unfold AsyncDeepseekAPI.fresh_login.
  destruct (negb (truthy (email a)) || negb (truthy (password a))); [discriminate|].
  unfold bind, get_session_id, get_auth_token, get_cookies, call, set_header, update,
    write_file; simpl.
  destruct (session_id_reply U _) as [sid|e]; [|discriminate]. simpl.
  destruct (auth_token_reply U _ _ _ _) as [tok|e]; [|discriminate]. simpl.
  destruct (cookies_reply U _ _) as [ck|e]; [|discriminate]. simpl.
  intros H. injection H as <-. exists sid, tok, ck. simpl. repeat split.
Qed.

(** C9, as stated, fails for a string that holds a surrogate pair as two
    code points: the save writes two escapes, and the load reads them
    back as the single code point they encode. After a fresh login whose
    cookie is such a string, the record loaded by the next [login]
    differs from the record that was saved. *)
Lemma credentials_round_trip_split_pair :
  let saved := AsyncDeepseekAPI.fresh_login split_pair_service plain_api
                 (start plain_api empty_world) in
  let loaded := AsyncDeepseekAPI.login mock (start plain_api (world_after saved)) in
  fst saved = Return tt
  /\ credentials (instance_after saved)
     = Some (credentials_record (py "sid-1") (py "tok-1") [55357; 56832])
  /\ fst loaded = Return tt
  /\ net (world_after loaded) = net (world_after saved)
  /\ credentials (instance_after loaded)
     = Some (credentials_record (py "sid-1") (py "tok-1") [128512])
  /\ credentials (instance_after loaded) <> credentials (instance_after saved).
Proof.
  vm_compute. repeat split. discriminate.
Qed.

(** C9, amended. When the three strings of the record hold code points
    of Unicode and no high surrogate directly followed by a low
    surrogate, the file that the fresh login writes is read back by the
    next [login] (with no [api_key]) as an equal record: [json.loads]
    inverts [json.dumps] on it, [login] returns without a network call
    and its [credentials] are those that were saved. Both facades do the
    same. *)
Theorem credentials_round_trip (U U' : utils) (a a' : api) (s0 s1 : state)
    (sid tok ck : pystr) :
  AsyncDeepseekAPI.fresh_login U a s0 = (Return tt, s1) ->
  credentials (self s1) = Some (credentials_record sid tok ck) ->
  valid_str sid = true -> valid_str tok = true -> valid_str ck = true ->
  truthy (api_key a') = false ->
  let r := AsyncDeepseekAPI.login U' (start a' (env s1)) in
  cred_file (env s1) = Some (Text (Json.dumps (credentials_record sid tok ck)))
  /\ Json.loads (Json.dumps (credentials_record sid tok ck))
     = Some (credentials_record sid tok ck)
  /\ fst r = Return tt
  /\ credentials (instance_after r) = credentials (self s1)
  /\ world_after r = env s1
  /\ SyncDeepseekAPI.login U' (start a' (env s1)) = r.
Proof.
  intros Hfresh Hcred Hs Ht Hc Hkey r.
  destruct (fresh_login_saves U a s0 s1 Hfresh) as (sid' & tok' & ck' & Hc' & Hfile & _).
  rewrite Hcred in Hc'. injection Hc' as <- <- <-.
  pose proof (loads_dumps_record sid tok ck Hs Ht Hc) as Hload.
  destruct (login_object_cached U' a' (env s1) _ _ Hkey Hfile Hload) as [Hrun Hsync].
  subst r. rewrite Hsync, Hrun, Hcred. unfold instance_after, world_after.
  repeat split; try assumption; reflexivity.
Qed.

Lemma credentials_round_trip_witness :
  AsyncDeepseekAPI.fresh_login mock plain_api (start plain_api empty_world)
  = (Return tt, logged_in)
  /\ valid_str (py "sid-1") = true /\ valid_str (py "tok-1") = true
  /\ valid_str (py "ck=1") = true
  /\ credentials
       (instance_after (AsyncDeepseekAPI.login mock (start no_password_api (env logged_in))))
     = credentials (self logged_in).
Proof.
  split; [vm_compute; reflexivity|]. split; [vm_compute; reflexivity|].
  split; [vm_compute; reflexivity|]. split; [vm_compute; reflexivity|].
  apply (credentials_round_trip mock mock plain_api no_password_api
           (start plain_api empty_world) logged_in
           (py "sid-1") (py "tok-1") (py "ck=1")); vm_compute; reflexivity.
Defined.

(** ** More on login *)

Lemma dict_set_get_same (k : pystr) (v : value) (d : dict) :
  dict_get k d = Some v -> dict_set k v d = d.
Proof.
  induction d as [|[k' v'] d IH]; simpl; [discriminate|].
  destruct (str_eqb k k') eqn:E.
  - intros H. now injection H as ->.
  - intros H. now rewrite IH.
Qed.

Ltac run_fresh :=
  unfold AsyncDeepseekAPI.fresh_login, SyncDeepseekAPI.fresh_login, bind,
    get_session_id, get_auth_token, get_cookies, call, set_header, update, write_file.

Lemma configured (a : api) (e p : pystr) :
  email a = Some e -> e <> [] -> password a = Some p -> p <> [] ->
  negb (truthy (email a)) || negb (truthy (password a)) = false.
Proof.
  intros -> He -> Hp. destruct e; [contradiction|]. destruct p; [contradiction|].
  reflexivity.
Qed.

(** A fresh login whose three helpers answer: the state it ends in. *)
Lemma fresh_login_success (U : utils) (a : api) (s : state) (e p sid tok ck : pystr) :
  email a = Some e -> e <> [] -> password a = Some p -> p <> [] ->
  session_id_reply U (map snd (net (env s))) = Return sid ->
  auth_token_reply U (map snd (net (env s)) ++ [SessionId]) e p sid = Return tok ->
  cookies_reply U (map snd (net (env s)) ++ [SessionId; AuthToken e p sid]) tok = Return ck ->
  AsyncDeepseekAPI.fresh_login U a s =
    (Return tt,
     {| self :=
          with_credentials (Some (credentials_record sid tok ck))
            (with_headers
               (dict_set (py "Cookie") (VStr ck)
                  (dict_set (py "Authorization") (VStr (py "Bearer " ++ tok))
                     (dict_set (py "Cookie") (VStr (py "session-id=" ++ sid))
                        (headers (self s)))))
               (with_cookie (Some ck)
                  (with_auth_token (Some tok) (with_session_id (Some sid) (self s)))));
        env :=
          {| cred_file := Some (Text (Json.dumps (credentials_record sid tok ck)));
             stdout := stdout (env s);
             net := net (env s) ++ login_calls e p sid tok |} |}).
Proof.
  intros He Hne Hp Hnp Hsid Htok Hck. unfold AsyncDeepseekAPI.fresh_login.
  rewrite (configured a e p He Hne Hp Hnp), He, Hp. run_fresh.
  cbn [the fst snd self env net].
  rewrite Hsid. cbn [fst snd self env net].
  rewrite map_app. cbn [map snd]. rewrite Htok. cbn [fst snd self env net].
  rewrite !map_app. cbn [map snd]. rewrite <- app_assoc. cbn [app].
  rewrite Hck. cbn [fst snd self env net cred_file stdout].
  unfold login_calls. rewrite <- !app_assoc. reflexivity.
Qed.

(** With no [api_key] and no usable cache, [login] prints what the load
    reports and goes on with the fresh login; on the way the
    [credentials] attribute may have taken the value that was loaded. *)
Lemma login_falls_through (U : utils) (a : api) (w : world) :
  truthy (api_key a) = false ->
  usable_cache w = false ->
  exists a',
    (a' = a \/ exists v, a' = with_credentials (Some v) a)
    /\ AsyncDeepseekAPI.login U (start a w)
       = AsyncDeepseekAPI.fresh_login U a
           (start a' (with_stdout (stdout w ++ load_diagnostic w) w))
    /\ SyncDeepseekAPI.login U (start a w) = AsyncDeepseekAPI.login U (start a w).
Proof.
  intros Hkey Hcache. unfold usable_cache in Hcache.
  unfold load_diagnostic, load_error, with_stdout.
  unfold AsyncDeepseekAPI.login, SyncDeepseekAPI.login, start, bind, get_self,
    path_exists, try_except, read_file, json_loads, method_get, set_header, update,
    print, ret, raise; simpl.
  rewrite Hkey. destruct w as [f out calls]; simpl in *.
  destruct f as [[content|]|]; simpl.
  - destruct (Json.loads content) as [v|]; simpl.
    + destruct v; try discriminate; simpl;
        (eexists; split; [right; eexists; reflexivity|split; reflexivity]).
    + exists a. split; [now left|split; reflexivity].
  - exists a. split; [now left|split; reflexivity].
  - exists a. rewrite app_nil_r. split; [now left|split; reflexivity].
Qed.

(** X1. A fresh login that succeeds. With no [api_key], no usable cache,
    email and password set, and the three helpers answering [sid], [tok]
    and [ck], [login] makes exactly the three calls in their order, each
    fed with the answer before; it ends with [Cookie] set to [ck] (the
    interim [session-id=] value is replaced), [Authorization] set to
    [Bearer tok], every other header as before, the three answers stored
    in the instance, and their record written to the credential file.
    Both facades do the same. *)
Theorem login_fresh (U : utils) (a : api) (w : world) (e p sid tok ck : pystr) :
  truthy (api_key a) = false ->
  usable_cache w = false ->
  email a = Some e -> e <> [] -> password a = Some p -> p <> [] ->
  session_id_reply U (map snd (net w)) = Return sid ->
  auth_token_reply U (map snd (net w) ++ [SessionId]) e p sid = Return tok ->
  cookies_reply U (map snd (net w) ++ [SessionId; AuthToken e p sid]) tok = Return ck ->
  let r := AsyncDeepseekAPI.login U (start a w) in
  fst r = Return tt
  /\ net (world_after r) = net w ++ login_calls e p sid tok
  /\ dict_get (py "Cookie") (headers (instance_after r)) = Some (VStr ck)
  /\ dict_get (py "Authorization") (headers (instance_after r))
     = Some (VStr (py "Bearer " ++ tok))
  /\ (forall h, h <> py "Cookie" -> h <> py "Authorization" ->
        dict_get h (headers (instance_after r)) = dict_get h (headers a))
  /\ credentials (instance_after r) = Some (credentials_record sid tok ck)
  /\ (session_id (instance_after r), auth_token (instance_after r),
      cookie (instance_after r)) = (Some sid, Some tok, Some ck)
  /\ cred_file (world_after r) = Some (Text (Json.dumps (credentials_record sid tok ck)))
  /\ SyncDeepseekAPI.login U (start a w) = r.
Proof.
  intros Hkey Hcache He Hne Hp Hnp Hsid Htok Hck r. subst r.
  destruct (login_falls_through U a w Hkey Hcache) as (a' & Ha' & Hrun & Hsync).
  rewrite Hsync, Hrun.
  rewrite (fresh_login_success U a
             (start a' (with_stdout (stdout w ++ load_diagnostic w) w))
             e p sid tok ck He Hne Hp Hnp Hsid Htok Hck).
  unfold instance_after, world_after. cbn [fst snd self env net cred_file].
  assert (Hh : headers a' = headers a) by (destruct Ha' as [->|[v ->]]; reflexivity).
  cbn [start self env with_stdout net headers with_credentials with_headers credentials
       session_id auth_token cookie with_cookie with_auth_token with_session_id].
  rewrite Hh.
  split; [reflexivity|]. split; [reflexivity|].
  split; [apply dict_get_set_same|].
  split; [rewrite dict_get_set_other by discriminate; apply dict_get_set_same|].
  split.
  { intros h Hc Ha. now rewrite !dict_get_set_other by assumption. }
  repeat split.
Qed.

Lemma login_fresh_witness :
  usable_cache empty_world = false
  /\ net (world_after (AsyncDeepseekAPI.login mock (start plain_api empty_world)))
     = login_calls (py "me@example.org") (py "pw") (py "sid-1") (py "tok-1").
Proof.
  split; [reflexivity|].
  apply (login_fresh mock plain_api empty_world (py "me@example.org") (py "pw")
           (py "sid-1") (py "tok-1") (py "ck=1"));
    first [vm_compute; reflexivity | discriminate].
Defined.

Lemma login_same (U : utils) : SyncDeepseekAPI.login U = AsyncDeepseekAPI.login U.
Proof. reflexivity. Qed.

Lemma send_message_same (U : utils) (message model : pystr) (stream : bool) (kwargs : dict) :
  SyncDeepseekAPI.send_message U message model stream kwargs
  = AsyncDeepseekAPI.send_message U message model stream kwargs.
Proof. reflexivity. Qed.

(** What the fresh login does to the world: it prints nothing, and it
    writes the file only at its very end. *)
Lemma fresh_login_world (U : utils) (a : api) (s : state) :
  let r := AsyncDeepseekAPI.fresh_login U a s in
  stdout (env (snd r)) = stdout (env s)
  /\ (begins (net (env s)) (net (env (snd r))))
  /\ match fst r with
     | Raise _ => cred_file (env (snd r)) = cred_file (env s)
     | Return _ =>
         exists sid tok ck,
           cred_file (env (snd r)) = Some (Text (Json.dumps (credentials_record sid tok ck)))
           /\ credentials (self (snd r)) = Some (credentials_record sid tok ck)
           /\ dict_get (py "Cookie") (headers (self (snd r))) = Some (VStr ck)
     end.
Proof.
  intros r. assert (Hr : AsyncDeepseekAPI.fresh_login U a s = r) by reflexivity.
  clearbody r. revert Hr. unfold AsyncDeepseekAPI.fresh_login.
  destruct (negb (truthy (email a)) || negb (truthy (password a))).
  { intros <-. cbn. split; [reflexivity|].
    split; [exists []; now rewrite app_nil_r|reflexivity]. }
  run_fresh.
  cbn [fst snd self env net stdout cred_file].
  destruct (session_id_reply U _) as [sid|e]; cbn [fst snd self env net stdout cred_file].
  2:{ intros <-. cbn [fst snd self env net stdout cred_file].
      split; [reflexivity|]. split; [eexists; reflexivity|reflexivity]. }
  destruct (auth_token_reply U _ _ _ _) as [tok|e]; cbn [fst snd self env net stdout cred_file].
  2:{ intros <-. cbn [fst snd self env net stdout cred_file].
      split; [reflexivity|]. split; [eexists; rewrite <- app_assoc; reflexivity|reflexivity]. }
  destruct (cookies_reply U _ _) as [ck|e]; cbn [fst snd self env net stdout cred_file].
  2:{ intros <-. cbn [fst snd self env net stdout cred_file].
      split; [reflexivity|]. split; [eexists; rewrite <- !app_assoc; reflexivity|reflexivity]. }
  intros <-. cbn [fst snd self env net stdout cred_file].
  split; [reflexivity|]. split; [eexists; rewrite <- !app_assoc; reflexivity|].
  exists sid, tok, ck. split; [reflexivity|]. split; [reflexivity|].
  cbn [headers with_credentials with_headers]. apply dict_get_set_same.
Qed.

(** The three ways through [login]. *)
Lemma login_cases (U : utils) (a : api) (w : world) :
  (truthy (api_key a) = true
   /\ AsyncDeepseekAPI.login U (start a w)
      = (Return tt,
         start (with_headers (dict_set (py "Authorization")
                                (VStr (py "Bearer " ++ fstr (api_key a))) (headers a)) a) w))
  \/ (truthy (api_key a) = false
      /\ exists content d,
           cred_file w = Some (Text content) /\ Json.loads content = Some (VDict d)
           /\ load_diagnostic w = []
           /\ AsyncDeepseekAPI.login U (start a w)
              = (Return tt,
                 start (with_headers (dict_set (py "Cookie") (record_cookie d) (headers a))
                          (with_credentials (Some (VDict d)) a)) w))
  \/ (truthy (api_key a) = false /\ usable_cache w = false
      /\ exists a',
           (a' = a \/ exists v, a' = with_credentials (Some v) a)
           /\ AsyncDeepseekAPI.login U (start a w)
              = AsyncDeepseekAPI.fresh_login U a
                  (start a' (with_stdout (stdout w ++ load_diagnostic w) w))).
Proof.
  destruct (truthy (api_key a)) eqn:Hkey.
  - left. split; [reflexivity|].
    unfold AsyncDeepseekAPI.login, start, bind, get_self, set_header, update; simpl.
    now rewrite Hkey.
  - right. destruct (usable_cache w) eqn:Hcache.
    + left. split; [reflexivity|]. unfold usable_cache in Hcache.
      destruct (cred_file w) as [[content|]|] eqn:Hfile; try discriminate.
      destruct (Json.loads content) as [[| | | | | |d]|] eqn:Hload; try discriminate.
      exists content, d. split; [reflexivity|]. split; [exact Hload|]. split.
      * unfold load_diagnostic, load_error. now rewrite Hfile, Hload.
      * apply (login_object_cached U a w content d Hkey Hfile Hload).
    + right. split; [reflexivity|]. split; [reflexivity|].
      destruct (login_falls_through U a w Hkey Hcache) as (a' & Ha' & Hrun & _).
      exists a'. split; assumption.
Qed.


(** X3. What [login] prints. With an [api_key] nothing; otherwise one
    line exactly when the credential file exists and cannot be used,
    naming the exception of the load: a decoding error for bytes that are
    not text, a JSON error for text that is not JSON, an attribute error
    for JSON that is not an object. The fresh login itself prints
    nothing. Both facades do the same. *)
Theorem login_diagnostic (U : utils) (a : api) (w : world) :
  let r := AsyncDeepseekAPI.login U (start a w) in
  stdout (world_after r)
  = stdout w ++ (if truthy (api_key a) then [] else load_diagnostic w)
  /\ SyncDeepseekAPI.login U (start a w) = r.
Proof.
  intros r. subst r. change (SyncDeepseekAPI.login U) with (AsyncDeepseekAPI.login U). unfold world_after.
  split; [|reflexivity].
  destruct (login_cases U a w) as [[Hkey Hrun]|[(Hkey & content & d & _ & _ & Hd & Hrun)
                                          |(Hkey & _ & a' & _ & Hrun)]];
    rewrite Hrun, Hkey.
  - cbn. now rewrite app_nil_r.
  - cbn. now rewrite Hd, app_nil_r.
  - pose proof (fresh_login_world U a
                  (start a' (with_stdout (stdout w ++ load_diagnostic w) w)))
      as (Hout & _).
    cbv zeta in Hout. rewrite Hout. reflexivity.
Qed.

Lemma dict_set_twice (k : pystr) (v : value) (d : dict) :
  dict_set k v (dict_set k v d) = dict_set k v d.
Proof. apply dict_set_get_same, dict_get_set_same. Qed.

Lemma start_self_env (s : state) : start (self s) (env s) = s.
Proof. now destruct s. Qed.

(** X4. After a fresh login that succeeded, a second [login] on the same
    instance changes nothing at all: it finds the file it has just
    written, makes no network call and leaves the instance and the world
    as they are (the strings being such that the record survives
    [json]). Both facades do the same. *)
Theorem login_after_fresh_login (U U' : utils) (a : api) (s0 s1 : state)
    (sid tok ck : pystr) :
  AsyncDeepseekAPI.fresh_login U a s0 = (Return tt, s1) ->
  credentials (self s1) = Some (credentials_record sid tok ck) ->
  valid_str sid = true -> valid_str tok = true -> valid_str ck = true ->
  truthy (api_key (self s1)) = false ->
  AsyncDeepseekAPI.login U' s1 = (Return tt, s1)
  /\ SyncDeepseekAPI.login U' s1 = (Return tt, s1).
Proof.
  intros Hfresh Hcred Hs Ht Hc Hkey.
  change (SyncDeepseekAPI.login U') with (AsyncDeepseekAPI.login U').
  assert (Hrun : AsyncDeepseekAPI.login U' s1 = (Return tt, s1)); [|now split].
  pose proof (fresh_login_world U a s0) as (_ & _ & Hw). cbv zeta in Hw.
  rewrite Hfresh in Hw. cbn [fst snd] in Hw.
  destruct Hw as (sid' & tok' & ck' & Hfile & Hcred' & Hcookie).
  rewrite Hcred in Hcred'. injection Hcred' as <- <- <-.
  pose proof (loads_dumps_record sid tok ck Hs Ht Hc) as Hload.
  destruct (login_object_cached U' (self s1) (env s1) _ _ Hkey Hfile Hload) as [Hl _].
  rewrite start_self_env in Hl. rewrite Hl. f_equal.
  change (record_cookie _) with (VStr ck).
  rewrite (dict_set_get_same _ _ _ Hcookie).
  clear - Hcred. destruct s1 as [a1 w1]. cbn [self env] in *. unfold start. f_equal.
  destruct a1 as [em pw px ak bu hd chd hist cr si au co].
  cbn in Hcred. subst cr. reflexivity.
Qed.

Lemma login_after_fresh_login_witness :
  AsyncDeepseekAPI.fresh_login mock plain_api (start plain_api empty_world)
  = (Return tt, logged_in)
  /\ AsyncDeepseekAPI.login refusing_service logged_in = (Return tt, logged_in).
Proof.
  assert (H : AsyncDeepseekAPI.fresh_login mock plain_api (start plain_api empty_world)
              = (Return tt, logged_in)) by (vm_compute; reflexivity).
  split; [exact H|].
  apply (login_after_fresh_login mock refusing_service plain_api
           (start plain_api empty_world) logged_in (py "sid-1") (py "tok-1") (py "ck=1") H);
    vm_compute; reflexivity.
Defined.

(** X5. On its two short paths [login] is idempotent: with an [api_key],
    or with a usable cache, a second [login] right after the first
    returns the same and leaves the same state. Both facades do the
    same. *)
Theorem login_twice (U U' : utils) (a : api) (w : world) :
  truthy (api_key a) = true \/ usable_cache w = true ->
  let r := AsyncDeepseekAPI.login U (start a w) in
  fst r = Return tt
  /\ AsyncDeepseekAPI.login U' (snd r) = r
  /\ SyncDeepseekAPI.login U' (snd r) = r.
Proof.
  intros Hshort r. subst r.
  change (SyncDeepseekAPI.login U') with (AsyncDeepseekAPI.login U').
  destruct (login_cases U a w) as [[Hkey Hrun]|[(Hkey & content & d & Hfile & Hload & _ & Hrun)
                                          |(Hkey & Hcache & _)]].
  - rewrite Hrun. cbn [fst snd]. split; [reflexivity|].
    set (a1 := with_headers _ a).
    destruct (login_cases U' a1 w) as [[_ Hrun']|[(Hkey' & _)|(Hkey' & _)]];
      [|cbn in Hkey'; congruence|cbn in Hkey'; congruence].
    rewrite Hrun'. subst a1. cbn [api_key with_headers headers].
    rewrite dict_set_twice. auto.
  - rewrite Hrun. cbn [fst snd]. split; [reflexivity|].
    set (a1 := with_headers _ (with_credentials _ a)).
    assert (Hkey1 : truthy (api_key a1) = false) by exact Hkey.
    destruct (login_object_cached U' a1 w content d Hkey1 Hfile Hload) as [Hl _].
    rewrite Hl. subst a1. cbn [with_headers with_credentials headers].
    rewrite dict_set_twice. auto.
  - destruct Hshort; congruence.
Qed.

Lemma login_twice_witness :
  usable_cache saved_world = true
  /\ AsyncDeepseekAPI.login refusing_service
       (snd (AsyncDeepseekAPI.login mock (start plain_api saved_world)))
     = AsyncDeepseekAPI.login mock (start plain_api saved_world).
Proof.
  assert (H : usable_cache saved_world = true) by (vm_compute; reflexivity).
  split; [exact H|].
  apply (login_twice mock refusing_service plain_api saved_world (or_intror H)).
Defined.

(** A fresh login whose second helper fails. *)
Lemma fresh_login_token_failure (U : utils) (a : api) (s : state) (e p sid : pystr)
    (err : exn) :
  email a = Some e -> e <> [] -> password a = Some p -> p <> [] ->
  session_id_reply U (map snd (net (env s))) = Return sid ->
  auth_token_reply U (map snd (net (env s)) ++ [SessionId]) e p sid = Raise err ->
  AsyncDeepseekAPI.fresh_login U a s =
    (Raise err,
     {| self :=
          with_headers
            (dict_set (py "Cookie") (VStr (py "session-id=" ++ sid)) (headers (self s)))
            (with_session_id (Some sid) (self s));
        env :=
          {| cred_file := cred_file (env s);
             stdout := stdout (env s);
             net := net (env s) ++ [(Client, SessionId); (Client, AuthToken e p sid)] |} |}).
Proof.
  intros He Hne Hp Hnp Hsid Htok. unfold AsyncDeepseekAPI.fresh_login.
  rewrite (configured a e p He Hne Hp Hnp), He, Hp. run_fresh.
  cbn [the fst snd self env net].
  rewrite Hsid. cbn [fst snd self env net].
  rewrite map_app. cbn [map snd]. rewrite Htok.
  cbn [fst snd self env net cred_file stdout]. rewrite <- app_assoc. reflexivity.
Qed.

(** X6. A login that fails at the second helper. When the session
    identifier arrives and the exchange of the credentials raises, [login]
    raises that error after two calls; [Cookie] is left at the interim
    [session-id=<sid>], [Authorization] is as before, [session_id] is
    stored and the credential file is untouched. Both facades do the
    same. *)
Theorem login_token_failure (U : utils) (a : api) (w : world) (e p sid : pystr) (err : exn) :
  truthy (api_key a) = false ->
  usable_cache w = false ->
  email a = Some e -> e <> [] -> password a = Some p -> p <> [] ->
  session_id_reply U (map snd (net w)) = Return sid ->
  auth_token_reply U (map snd (net w) ++ [SessionId]) e p sid = Raise err ->
  let r := AsyncDeepseekAPI.login U (start a w) in
  fst r = Raise err
  /\ net (world_after r) = net w ++ [(Client, SessionId); (Client, AuthToken e p sid)]
  /\ dict_get (py "Cookie") (headers (instance_after r))
     = Some (VStr (py "session-id=" ++ sid))
  /\ dict_get (py "Authorization") (headers (instance_after r))
     = dict_get (py "Authorization") (headers a)
  /\ session_id (instance_after r) = Some sid
  /\ cred_file (world_after r) = cred_file w
  /\ SyncDeepseekAPI.login U (start a w) = r.
Proof.
  intros Hkey Hcache He Hne Hp Hnp Hsid Htok r. subst r.
  destruct (login_falls_through U a w Hkey Hcache) as (a' & Ha' & Hrun & Hsync).
  rewrite Hsync, Hrun.
  rewrite (fresh_login_token_failure U a
             (start a' (with_stdout (stdout w ++ load_diagnostic w) w))
             e p sid err He Hne Hp Hnp Hsid Htok).
  unfold instance_after, world_after.
  assert (Hh : headers a' = headers a) by (destruct Ha' as [->|[v ->]]; reflexivity).
  cbn [fst snd self env net cred_file headers with_headers with_session_id session_id
       start with_stdout].
  rewrite Hh.
  split; [reflexivity|]. split; [reflexivity|].
  split; [apply dict_get_set_same|].
  split; [apply dict_get_set_other; discriminate|].
  repeat split.
Qed.

Lemma login_token_failure_witness :
  auth_token_reply refusing_service [SessionId] (py "me@example.org") (py "pw") (py "sid-1")
  = Raise (HelperError 401 [])
  /\ fst (AsyncDeepseekAPI.login refusing_service (start plain_api empty_world))
     = Raise (HelperError 401 []).
Proof.
  split; [reflexivity|].
  apply (login_token_failure refusing_service plain_api empty_world
           (py "me@example.org") (py "pw") (py "sid-1") (HelperError 401 []));
    first [vm_compute; reflexivity | discriminate].
Defined.

(** ** More on sending a message *)

Lemma stateless_ret {A} (a : A) : stateless (ret a).
Proof. now exists (Return a). Qed.

Lemma stateless_raise {A} (e : exn) : stateless (@raise A e).
Proof. now exists (Raise e). Qed.

Lemma stateless_bind {A B} (m : M A) (k : A -> M B) :
  stateless m -> (forall a, stateless (k a)) -> stateless (bind m k).
Proof.
  intros [o Hm] Hk. unfold bind. destruct o as [a|e].
  - destruct (Hk a) as [o' Hk']. exists o'. intros s. now rewrite Hm, Hk'.
  - exists (Raise e). intros s. now rewrite Hm.
Qed.

Lemma stateless_getitem (v : value) (k : pystr) : stateless (getitem v k).
Proof.
  unfold getitem. destruct v; try apply stateless_raise.
  destruct (dict_get k d); [apply stateless_ret|apply stateless_raise].
Qed.

Lemma stateless_getitem0 (v : value) : stateless (getitem0 v).
Proof.
  unfold getitem0.
  destruct v as [| | | |[|c s]|[|x l]|]; first [apply stateless_raise|apply stateless_ret].
Qed.

Lemma stateless_content_lookup (v : value) : stateless (content_lookup v).
Proof.
  unfold content_lookup.
  repeat (apply stateless_bind; [|intros ?]);
    first [apply stateless_getitem|apply stateless_getitem0].
Qed.

Lemma content_lookup_at (v : value) (s s' : state) :
  content_lookup v s' = (fst (content_lookup v s), s').
Proof.
  destruct (stateless_content_lookup v) as [o Ho]. now rewrite !Ho.
Qed.

(** [send_message], one case after the other. *)
Lemma send_message_cases (U : utils) (a : api) (w : world) (message model : pystr)
    (stream : bool) (kwargs : dict) :
  let a1 := chat_ready a in
  let req := chat_request a message model stream kwargs in
  let w1 := called req w in
  let asked := with_chat_history (chat_history a ++ [turn "user" (VStr message)]) a1 in
  AsyncDeepseekAPI.send_message U message model stream kwargs (start a w) =
    match http_reply U (map snd (net w)) req with
    | Raise e => (Raise e, start a1 w1)
    | Return resp =>
        match raise_for_status U resp with
        | Raise e => (Raise e, start a1 w1)
        | Return _ =>
            if stream then
              (Return (Stream (StreamDecoder.process_stream_response U (frames resp))),
               start a1 w1)
            else
              match json_body resp with
              | Raise e => (Raise e, start a1 w1)
              | Return v =>
                  match fst (content_lookup v (start a w)) with
                  | Raise e => (Raise e, start asked w1)
                  | Return c =>
                      (Return (Reply v),
                       start (with_chat_history
                                (chat_history a
                                 ++ [turn "user" (VStr message); turn "assistant" c]) a1) w1)
                  end
              end
        end
    end.
Proof.
  intros a1 req w1 asked. subst a1 req w1 asked.
  unfold chat_request, chat_payload, chat_ready, chat_headers_of, chat_url, model_class,
    called.
  unfold AsyncDeepseekAPI.send_message, append_history, http, call, lift, get_self,
    update, ret, start, content_lookup, bind.
  cbn [fst snd self env].
  destruct (truthy (chat_headers a)) eqn:Ht;
    cbn [negb fst snd self env net cred_file stdout chat_headers with_chat_headers the
         base_url chat_history headers];
    (destruct (http_reply U _ _) as [resp|e]; [|reflexivity]);
    (destruct (raise_for_status U resp) as [[]|e]; [|reflexivity]);
    (destruct stream; [reflexivity|]);
    (destruct (json_body resp) as [v|e]; [|reflexivity]);
    cbn [fst snd self env net cred_file stdout chat_headers with_chat_headers the
         base_url chat_history headers with_chat_history];
    destruct (stateless_getitem v (py "choices")) as [o1 H1]; rewrite !H1;
    (destruct o1 as [choices|e]; [|reflexivity]);
    destruct (stateless_getitem0 choices) as [o2 H2]; rewrite !H2;
    (destruct o2 as [choice|e]; [|reflexivity]);
    destruct (stateless_getitem choice (py "message")) as [o3 H3]; rewrite !H3;
    (destruct o3 as [msg|e]; [|reflexivity]);
    destruct (stateless_getitem msg (py "content")) as [o4 H4]; rewrite !H4;
    (destruct o4 as [content|e]; [|reflexivity]);
    cbn [fst snd self env net cred_file stdout chat_headers with_chat_headers the
         base_url chat_history headers with_chat_history];
    rewrite <- app_assoc; reflexivity.
Qed.

Lemma dict_get_update_none (k : pystr) (kw d : dict) :
  dict_get k kw = None -> dict_get k (dict_update d kw) = dict_get k d.
Proof.
  unfold dict_update. revert d. induction kw as [|[k1 v1] kw IH]; intros d H; [reflexivity|].
  cbn [fold_left fst snd]. cbn [dict_get] in H.
  destruct (str_eqb k k1) eqn:E; [discriminate|].
  rewrite (IH _ H). apply dict_get_set_other.
  intros ->. now rewrite str_eqb_refl in E.
Qed.

Lemma dict_get_absent (k : pystr) (d : dict) :
  ~ In k (map fst d) -> dict_get k d = None.
Proof.
  induction d as [|[k1 v1] d IH]; intros H; [reflexivity|].
  cbn [dict_get]. destruct (str_eqb k k1) eqn:E.
  - apply str_eqb_eq in E. subst. exfalso. apply H. now left.
  - apply IH. intros Hin. apply H. now right.
Qed.

Lemma dict_get_update_some (k : pystr) (v : value) (kw d : dict) :
  NoDup (map fst kw) -> dict_get k kw = Some v ->
  dict_get k (dict_update d kw) = Some v.
Proof.
  unfold dict_update. revert d. induction kw as [|[k1 v1] kw IH]; intros d Hnd H;
    [discriminate|].
  cbn [fold_left fst snd]. cbn [dict_get] in H. cbn [map fst] in Hnd.
  inversion Hnd as [|? ? Hnotin Hnd']; subst.
  destruct (str_eqb k k1) eqn:E.
  - injection H as ->. apply str_eqb_eq in E. subst k1.
    change (fold_left _ kw ?d0) with (dict_update d0 kw).
    rewrite dict_get_update_none by now apply dict_get_absent.
    apply dict_get_set_same.
  - now apply IH.
Qed.

Lemma chat_headers_ready (a : api) :
  chat_headers (chat_ready a) = Some (the (chat_headers (chat_ready a)))
  /\ chat_headers (chat_ready a)
     = (if truthy (chat_headers a) then chat_headers a
        else Some (chat_headers_of (headers a))).
Proof.
  unfold chat_ready. destruct (truthy (chat_headers a)) eqn:Ht; [|split; reflexivity].
  split; [|reflexivity]. now destruct (chat_headers a) as [[|x l]|].
Qed.

(** Where [send_message] leaves the instance and the world: the instance
    made ready, with some turns added to its history, and one more call. *)
Lemma send_message_state (U : utils) (a : api) (w : world) (message model : pystr)
    (stream : bool) (kwargs : dict) :
  exists added,
    snd (AsyncDeepseekAPI.send_message U message model stream kwargs (start a w))
    = start (with_chat_history (chat_history a ++ added) (chat_ready a))
            (called (chat_request a message model stream kwargs) w).
Proof.
  assert (Hnil : start (chat_ready a) (called (chat_request a message model stream kwargs) w)
                 = start (with_chat_history (chat_history a ++ []) (chat_ready a))
                         (called (chat_request a message model stream kwargs) w)).
  { rewrite app_nil_r. unfold chat_ready.
    destruct (truthy (chat_headers a)); now destruct a. }
  rewrite send_message_cases.
  destruct (http_reply U _ _) as [resp|e]; [|exists []; exact Hnil].
  destruct (raise_for_status U resp) as [[]|e]; [|exists []; exact Hnil].
  destruct stream; [exists []; exact Hnil|].
  destruct (json_body resp) as [v|e]; [|exists []; exact Hnil].
  destruct (fst (content_lookup v (start a w))) as [c|e]; eexists; reflexivity.
Qed.

(** X7. Every [send_message] makes exactly one call, whatever comes of
    it: a POST to [base_url + /api/chat/send] whose headers are the
    instance's chat headers and whose JSON payload holds, unless a keyword
    option of that name replaces it, the message, the stream flag, the
    model class ([deepseek_chat] for the model [deepseek-chat],
    [deepseek_code] for any other) and the history as it was before the
    call. Both facades do the same. *)
Theorem send_message_request (U : utils) (a : api) (w : world) (message model : pystr)
    (stream : bool) (kwargs : dict) :
  let r := AsyncDeepseekAPI.send_message U message model stream kwargs (start a w) in
  exists hdrs payload,
    net (world_after r)
    = net w ++ [(Client, Http (py "POST") (fstr (base_url a) ++ py "/api/chat/send") hdrs
                          (Some (VDict payload)))]
    /\ chat_headers (instance_after r) = Some hdrs
    /\ (dict_get (py "message") kwargs = None ->
        dict_get (py "message") payload = Some (VStr message))
    /\ (dict_get (py "stream") kwargs = None ->
        dict_get (py "stream") payload = Some (VBool stream))
    /\ (dict_get (py "model_class") kwargs = None ->
        dict_get (py "model_class") payload
        = Some (VStr (if str_eqb model (py "deepseek-chat")
                      then py "deepseek_chat" else py "deepseek_code")))
    /\ (dict_get (py "chat_history") kwargs = None ->
        dict_get (py "chat_history") payload = Some (VList (chat_history a)))
    /\ SyncDeepseekAPI.send_message U message model stream kwargs (start a w) = r.
Proof.
  intros r. subst r. unfold instance_after, world_after.
  destruct (send_message_state U a w message model stream kwargs) as [added ->].
  exists (the (chat_headers (chat_ready a))), (chat_payload a message model stream kwargs).
  split; [reflexivity|]. split; [apply chat_headers_ready|].
  unfold chat_payload.
  repeat (split; [intros H; now rewrite (dict_get_update_none _ _ _ H)|]).
  reflexivity.
Qed.

(** X8. A keyword option of [send_message] goes into the payload under its
    own name and replaces a built-in entry of that name; every name that
    is not among the options keeps the built-in entry. Both facades do the
    same. *)
Theorem send_message_kwargs (U : utils) (a : api) (w : world) (message model : pystr)
    (stream : bool) (kwargs : dict) (k : pystr) (v : value) :
  NoDup (map fst kwargs) ->
  dict_get k kwargs = Some v ->
  let r := AsyncDeepseekAPI.send_message U message model stream kwargs (start a w) in
  exists url hdrs payload,
    net (world_after r) = net w ++ [(Client, Http (py "POST") url hdrs (Some (VDict payload)))]
    /\ dict_get k payload = Some v
    /\ (forall k', dict_get k' kwargs = None ->
          dict_get k' payload
          = dict_get k' (chat_payload a message model stream []))
    /\ SyncDeepseekAPI.send_message U message model stream kwargs (start a w) = r.
Proof.
  intros Hnd Hk r. subst r. unfold world_after.
  destruct (send_message_state U a w message model stream kwargs) as [added ->].
  exists (chat_url a), (the (chat_headers (chat_ready a))),
    (chat_payload a message model stream kwargs).
  split; [reflexivity|]. unfold chat_payload.
  split; [now apply dict_get_update_some|].
  split; [intros k' Hk'; now apply dict_get_update_none|reflexivity].
Qed.

Lemma send_message_kwargs_witness :
  let kwargs := [(py "temperature", VInt 1); (py "chat_history", VList [])] in
  NoDup (map fst kwargs)
  /\ exists url hdrs payload,
       net (world_after (AsyncDeepseekAPI.send_message mock (py "hello") (py "deepseek-chat")
                           false kwargs (start chatting_api empty_world)))
       = [(Client, Http (py "POST") url hdrs (Some (VDict payload)))]
       /\ dict_get (py "chat_history") payload = Some (VList []).
Proof.
  intros kwargs.
  assert (Hnd : NoDup (map fst kwargs)).
  { repeat constructor; cbn; intuition discriminate. }
  split; [exact Hnd|].
  destruct (send_message_kwargs mock chatting_api empty_world (py "hello")
              (py "deepseek-chat") false kwargs (py "chat_history") (VList []) Hnd eq_refl)
    as (url & hdrs & payload & Hnet & Hk & _).
  exists url, hdrs, payload. split; [exact Hnet|exact Hk].
Defined.

(** X9. The chat headers are computed once. The first [send_message]
    sets them to the headers of that moment plus [Accept] and
    [Content-Type]; once they are set [send_message] leaves them alone,
    and a later change of [self.headers] (a later [login]) reaches
    neither the requests nor the outcome of [send_message]. Both facades
    do the same. *)
Theorem chat_headers_computed_once (U : utils) (a : api) (w : world)
    (message model : pystr) (stream : bool) (kwargs : dict) :
  let r := AsyncDeepseekAPI.send_message U message model stream kwargs (start a w) in
  chat_headers (instance_after r)
  = (if truthy (chat_headers a) then chat_headers a
     else Some (chat_headers_of (headers a)))
  /\ (truthy (chat_headers a) = true ->
      forall h',
        let r' := AsyncDeepseekAPI.send_message U message model stream kwargs
                    (start (with_headers h' a) w) in
        fst r' = fst r
        /\ net (world_after r') = net (world_after r)
        /\ chat_headers (instance_after r') = chat_headers a)
  /\ SyncDeepseekAPI.send_message U message model stream kwargs (start a w) = r.
Proof.
  intros r. subst r. unfold instance_after, world_after.
  split; [|split; [|reflexivity]].
  - destruct (send_message_state U a w message model stream kwargs) as [added ->].
    apply chat_headers_ready.
  - intros Ht h'. cbv zeta.
    assert (Hreq : chat_request (with_headers h' a) message model stream kwargs
                   = chat_request a message model stream kwargs).
    { unfold chat_request, chat_ready, chat_url, chat_payload.
      cbn [chat_headers with_headers base_url chat_history]. now rewrite Ht. }
    split; [|split].
    + rewrite !send_message_cases. rewrite Hreq.
      destruct (http_reply U _ _) as [resp|e]; [|reflexivity].
      destruct (raise_for_status U resp) as [[]|e]; [|reflexivity].
      destruct stream; [reflexivity|].
      destruct (json_body resp) as [v|e]; [|reflexivity].
      rewrite (content_lookup_at v (start a w) (start (with_headers h' a) w)).
      cbn [fst]. now destruct (fst (content_lookup v (start a w))).
    + destruct (send_message_state U (with_headers h' a) w message model stream kwargs)
        as [added ->].
      destruct (send_message_state U a w message model stream kwargs) as [added' ->].
      now rewrite Hreq.
    + destruct (send_message_state U (with_headers h' a) w message model stream kwargs)
        as [added ->].
      cbn [snd self start chat_headers with_chat_history]. unfold chat_ready.
      cbn [chat_headers with_headers]. now rewrite Ht.
Qed.

(** X10. [send_message] touches nothing but the chat headers and the
    history: headers, credentials, the three login attributes and the
    configuration are as before, the credential file and the printed
    lines too, and the call list is longer by one. Both facades do the
    same. *)
Theorem send_message_frame (U : utils) (a : api) (w : world) (message model : pystr)
    (stream : bool) (kwargs : dict) :
  let r := AsyncDeepseekAPI.send_message U message model stream kwargs (start a w) in
  SyncDeepseekAPI.send_message U message model stream kwargs (start a w) = r
  /\ headers (instance_after r) = headers a
  /\ credentials (instance_after r) = credentials a
  /\ (session_id (instance_after r), auth_token (instance_after r),
      cookie (instance_after r)) = (session_id a, auth_token a, cookie a)
  /\ configuration (instance_after r) = configuration a
  /\ cred_file (world_after r) = cred_file w
  /\ stdout (world_after r) = stdout w
  /\ List.length (net (world_after r)) = S (List.length (net w)).
Proof.
  intros r. subst r. split; [reflexivity|]. unfold instance_after, world_after.
  destruct (send_message_state U a w message model stream kwargs) as [added ->].
  unfold chat_ready, configuration.
  destruct (truthy (chat_headers a)); cbn; rewrite length_app; cbn;
    repeat split; lia.
Qed.





(** ** What no operation does *)

Lemma evolves_refl (s : state) : evolves s s.
Proof. split; [reflexivity|]. exists []. now rewrite app_nil_r. Qed.

Lemma evolves_trans (s1 s2 s3 : state) : evolves s1 s2 -> evolves s2 s3 -> evolves s1 s3.
Proof.
  intros [Hc1 [l1 H1]] [Hc2 [l2 H2]]. split; [congruence|].
  exists (l1 ++ l2). now rewrite H2, H1, app_assoc.
Qed.

Lemma keeps_ret {A} (a : A) : keeps (ret a).
Proof. intros s. apply evolves_refl. Qed.

Lemma keeps_raise {A} (e : exn) : keeps (@raise A e).
Proof. intros s. apply evolves_refl. Qed.

Lemma keeps_lift {A} (o : outcome A) : keeps (lift o).
Proof. intros s. apply evolves_refl. Qed.

Lemma keeps_get_self : keeps get_self.
Proof. intros s. apply evolves_refl. Qed.

Lemma keeps_path_exists : keeps path_exists.
Proof. intros s. apply evolves_refl. Qed.

Lemma keeps_read_file : keeps read_file.
Proof.
  intros s. unfold read_file.
  destruct (cred_file (env s)) as [[content|]|]; apply evolves_refl.
Qed.

Lemma keeps_world {A} (m : M A) :
  (forall s, self (snd (m s)) = self s) -> keeps m.
Proof.
  intros H s. unfold evolves, extends_history. rewrite H.
  split; [reflexivity|]. exists []. now rewrite app_nil_r.
Qed.

Lemma keeps_write_file (text : pystr) : keeps (write_file text).
Proof. now apply keeps_world. Qed.

Lemma keeps_print (l : line) : keeps (print l).
Proof. now apply keeps_world. Qed.

Lemma keeps_call {A} (v : via) (r : request) (answer : list request -> outcome A) :
  keeps (call v r answer).
Proof. now apply keeps_world. Qed.

Lemma keeps_update (f : api -> api) :
  (forall a, configuration (f a) = configuration a /\ extends_history a (f a)) ->
  keeps (update f).
Proof. intros H s. exact (H (self s)). Qed.

Lemma keeps_bind {A B} (m : M A) (k : A -> M B) :
  keeps m -> (forall a, keeps (k a)) -> keeps (bind m k).
Proof.
  intros Hm Hk s. unfold bind. specialize (Hm s).
  destruct (m s) as [[a|e] s1]; cbn [snd] in *; [|exact Hm].
  eapply evolves_trans; [exact Hm|apply Hk].
Qed.

Lemma keeps_try {A} (m : M A) (h : exn -> M A) :
  keeps m -> (forall e, keeps (h e)) -> keeps (try_except m h).
Proof.
  intros Hm Hh s. unfold try_except. specialize (Hm s).
  destruct (m s) as [[a|e] s1]; cbn [snd] in *; [exact Hm|].
  eapply evolves_trans; [exact Hm|apply Hh].
Qed.

Ltac keep_field :=
  intros ?; split; [reflexivity|];
  first [ exists []; cbn; now rewrite app_nil_r | eexists; reflexivity ].

Ltac keep :=
  repeat first
    [ apply keeps_ret | apply keeps_raise | apply keeps_lift | apply keeps_get_self
    | apply keeps_path_exists | apply keeps_read_file | apply keeps_write_file
    | apply keeps_print | apply keeps_call
    | apply keeps_update; keep_field
    | apply keeps_bind; [|intros ?]
    | apply keeps_try; [|intros ?]
    | progress cbv zeta
    | match goal with
      | |- keeps (if ?b then _ else _) => destruct b
      | |- keeps (match ?x with _ => _ end) => destruct x
      end ].

Lemma login_keeps (U : utils) : keeps (AsyncDeepseekAPI.login U).
Proof.
  unfold AsyncDeepseekAPI.login, AsyncDeepseekAPI.fresh_login,
    set_header, json_loads, method_get, get_session_id, get_auth_token, get_cookies.
  keep.
Qed.

Lemma get_models_keeps (U : utils) :
  keeps (AsyncDeepseekAPI.get_models U) /\ keeps (SyncDeepseekAPI.get_models U).
Proof.
  unfold AsyncDeepseekAPI.get_models, SyncDeepseekAPI.get_models, http. split; keep.
Qed.

Lemma send_message_keeps (U : utils) (message model : pystr) (stream : bool) (kwargs : dict) :
  keeps (AsyncDeepseekAPI.send_message U message model stream kwargs).
Proof.
  unfold AsyncDeepseekAPI.send_message, http, append_history, getitem, getitem0.
  keep.
Qed.

Lemma op_keeps (U : utils) (o : op) : keeps (async_op U o) /\ keeps (sync_op U o).
Proof.
  destruct o; cbn [async_op sync_op]; split;
    (apply keeps_bind; [|intros ?; apply keeps_ret]);
    first [ apply login_keeps | apply (get_models_keeps U) | apply send_message_keeps ].
Qed.

Lemma run_keeps (step : op -> M result) (ops : list op) :
  (forall o, keeps (step o)) -> forall s, evolves s (snd (run step ops s)).
Proof.
  intros Hstep. induction ops as [|o ops IH]; intros s; cbn [run].
  - apply evolves_refl.
  - specialize (Hstep o s). destruct (step o s) as [r s1]. cbn [snd] in Hstep.
    specialize (IH s1). destruct (run step ops s1) as [rs s2]. cbn [snd] in *.
    eapply evolves_trans; eassumption.
Qed.

(** X14. The chat history is append-only: after any sequence of [login],
    [get_models] and [send_message], on either facade, the history is the
    one before with turns added at its end. *)
Theorem chat_history_append_only (U : utils) (a : api) (w : world) (ops : list op) :
  (exists added,
     chat_history (instance (observe (run (async_op U) ops (start a w))))
     = chat_history a ++ added)
  /\ (exists added,
        chat_history (instance (observe (run (sync_op U) ops (start a w))))
        = chat_history a ++ added).
Proof.
  split.
  - apply (run_keeps (async_op U) ops (fun o => proj1 (op_keeps U o)) (start a w)).
  - apply (run_keeps (sync_op U) ops (fun o => proj2 (op_keeps U o)) (start a w)).
Qed.

(** X15. No operation changes the configuration: after any sequence of
    [login], [get_models] and [send_message], on either facade, email,
    password, proxies, [api_key] and [base_url] are as given to the
    constructor. *)
Theorem configuration_is_constant (U : utils) (a : api) (w : world) (ops : list op) :
  configuration (instance (observe (run (async_op U) ops (start a w)))) = configuration a
  /\ configuration (instance (observe (run (sync_op U) ops (start a w)))) = configuration a.
Proof.
  split.
  - apply (run_keeps (async_op U) ops (fun o => proj1 (op_keeps U o)) (start a w)).
  - apply (run_keeps (sync_op U) ops (fun o => proj2 (op_keeps U o)) (start a w)).
Qed.

(** ** Operations one after the other *)

(** X16. [login] with an [api_key] followed by the first
    [send_message]: the chat request carries [Authorization: Bearer key]
    together with [Accept: text/event-stream] and
    [Content-Type: application/json], and every other header as the
    instance had it. Both facades do the same. *)
Theorem login_then_send_message (U : utils) (a : api) (w : world) (key : pystr)
    (message model : pystr) (stream : bool) (kwargs : dict) :
  api_key a = Some key -> key <> [] ->
  truthy (chat_headers a) = false ->
  let r := run (async_op U) [Login; SendMessage message model stream kwargs] (start a w) in
  (exists hdrs payload,
     net (env (snd r))
     = net w ++ [(Client, Http (py "POST") (chat_url a) hdrs (Some (VDict payload)))]
     /\ dict_get (py "Authorization") hdrs = Some (VStr (py "Bearer " ++ key))
     /\ dict_get (py "Accept") hdrs = Some (VStr (py "text/event-stream"))
     /\ dict_get (py "Content-Type") hdrs = Some (VStr (py "application/json"))
     /\ (forall h, h <> py "Authorization" -> h <> py "Accept" -> h <> py "Content-Type" ->
           dict_get h hdrs = dict_get h (headers a)))
  /\ run (sync_op U) [Login; SendMessage message model stream kwargs] (start a w) = r.
Proof.
  intros Hkey Hne Hchat r. subst r.
  assert (Ht : truthy (api_key a) = true).
  { rewrite Hkey. now destruct key. }
  destruct (login_cases U a w) as [[_ Hrun]|[(Hk & _)|(Hk & _)]]; [|congruence|congruence].
  split; [|reflexivity].
  cbn [run async_op]. unfold bind at 1. rewrite Hrun. unfold ret at 1. unfold bind.
  rewrite Hkey. cbn [fstr].
  set (a1 := with_headers _ a).
  destruct (send_message_state U a1 w message model stream kwargs) as [added Hs].
  destruct (AsyncDeepseekAPI.send_message U message model stream kwargs (start a1 w))
    as [[x|e] s2]; cbn [snd] in Hs; subst s2; cbn [snd env start called net];
    (exists (the (chat_headers (chat_ready a1))), (chat_payload a1 message model stream kwargs);
     split; [reflexivity|];
     unfold chat_ready; subst a1; cbn [chat_headers with_headers headers];
     rewrite Hchat; cbn [chat_headers with_chat_headers the]; unfold chat_headers_of;
     split; [rewrite !dict_get_set_other by discriminate; apply dict_get_set_same|];
     split; [rewrite dict_get_set_other by discriminate; apply dict_get_set_same|];
     split; [apply dict_get_set_same|];
     intros h H1 H2 H3; now rewrite !dict_get_set_other by assumption).
Qed.

Lemma login_then_send_message_witness :
  api_key keyed_api = Some (py "sk-1")
  /\ exists hdrs payload,
       net (env (snd (run (async_op mock)
                        [Login; SendMessage (py "hello") (py "deepseek-chat") false []]
                        (start keyed_api empty_world))))
       = [(Client, Http (py "POST") (chat_url keyed_api) hdrs (Some (VDict payload)))]
       /\ dict_get (py "Authorization") hdrs = Some (VStr (py "Bearer sk-1")).
Proof.
  split; [reflexivity|].
  destruct (login_then_send_message mock keyed_api empty_world (py "sk-1") (py "hello")
              (py "deepseek-chat") false [] eq_refl ltac:(discriminate) eq_refl)
    as [(hdrs & payload & Hnet & Hauth & _) _].
  exists hdrs, payload. split; [exact Hnet|exact Hauth].
Defined.



(** ** The context manager *)

(** X18. The context manager. Entering logs in: when [login] raises, the
    block raises the same without running its body. The exit method does
    nothing and swallows nothing: an exception of the body is raised by
    the block, a value is returned, and the state is the one the body
    left. Both facades do the same. *)
Theorem with_block_propagates (U : utils) (A : Type) (body : api -> M A) (s : state) :
  let entered := AsyncDeepseekAPI.login U s in
  let r := with_block (AsyncDeepseekAPI.aenter U) AsyncDeepseekAPI.aexit body s in
  (forall e, fst entered = Raise e -> r = (Raise e, snd entered))
  /\ (fst entered = Return tt ->
      forall ran, body (self (snd entered)) (snd entered) = ran ->
      r = (match fst ran with
           | Return x => Return (Some x)
           | Raise e => Raise e
           end, snd ran))
  /\ with_block (SyncDeepseekAPI.enter U) SyncDeepseekAPI.exit body s = r.
Proof.
  intros entered r. subst entered r.
  unfold with_block, AsyncDeepseekAPI.aenter, AsyncDeepseekAPI.aexit,
    SyncDeepseekAPI.enter, SyncDeepseekAPI.exit.
  change (SyncDeepseekAPI.login U) with (AsyncDeepseekAPI.login U).
  unfold bind, get_self, ret, raise.
  destruct (AsyncDeepseekAPI.login U s) as [[[]|e] s1]; cbn [fst snd].
  - split; [discriminate|]. split; [|reflexivity].
    intros _ ran <-. now destruct (body (self s1) s1) as [[x|e] s2].
  - split; [|split; [discriminate|reflexivity]].
    intros e' H. now injection H as ->.
Qed.
